(** * BCAnalysisVisualizer: synthetic data set, season filter and statistics

    A shallow embedding of [src/Misc/interface/src/App.tsx] (component
    [BCAnalysisVisualizer]): the generator [generateSampleData], the season
    filter [filteredData], the time-series sort, the MAC statistics of
    [renderMACAnalysis] and the seasonal distribution of the summary panel.

    Conventions of the embedding.
    - Numbers come in two layers.  In the first a JavaScript [number] is an
      exact rational extended with [+Infinity], [-Infinity] and [NaN]; it
      serves for what does not hang on rounding: the structure of the data
      (dates, seasons, order, counts) and bounds on the values stated with
      a margin that rounding does not use up.  In the second, module
      [Double], the component is repeated on IEEE 754 binary64 values with
      their correctly rounded operations, as the engine computes; the texts
      of [toFixed], sums, the early returns of the component and concrete
      runs are settled there.
    - Time values, months and counts are integers ([Z], [nat]).
    - [Math.random] is a stream of draws read through a position counter.
    - The host time zone enters through [LocalTZA], as in ECMAScript.
    - An exception is a [Throw] result. *)

From Stdlib Require Import ZArith QArith Qround Qabs Lia Lqa String Ascii List.
From Stdlib Require Import DecimalString Sorted Permutation Floats.
From stdpp Require Import base list strings gmap.

#[local] Set Warnings "-inexact-float".

Open Scope Z_scope.

(** ** Numbers *)

Inductive number : Type :=
| Fin (q : Q)
| PosInf
| NegInf
| NaN.

Module Number.

Definition ofZ (z : Z) : number := Fin (inject_Z z).
Definition ofNat (n : nat) : number := ofZ (Z.of_nat n).

Definition neg (a : number) : number :=
  match a with
  | Fin x => Fin (- x)
  | PosInf => NegInf
  | NegInf => PosInf
  | NaN => NaN
  end.

Definition add (a b : number) : number :=
  match a, b with
  | NaN, _ | _, NaN => NaN
  | Fin x, Fin y => Fin (x + y)
  | PosInf, NegInf | NegInf, PosInf => NaN
  | PosInf, _ | _, PosInf => PosInf
  | NegInf, _ | _, NegInf => NegInf
  end.

Definition sub (a b : number) : number := add a (neg b).

(** The infinity carrying the sign of [x]; a zero [x] gives NaN, which is
    what [Infinity * 0] and [0 / 0] evaluate to. *)
Definition signedInf (x : Q) (positive : bool) : number :=
  match (x ?= 0)%Q with
  | Eq => NaN
  | Gt => if positive then PosInf else NegInf
  | Lt => if positive then NegInf else PosInf
  end.

Definition mul (a b : number) : number :=
  match a, b with
  | NaN, _ | _, NaN => NaN
  | Fin x, Fin y => Fin (x * y)
  | PosInf, Fin y | Fin y, PosInf => signedInf y true
  | NegInf, Fin y | Fin y, NegInf => signedInf y false
  | PosInf, PosInf | NegInf, NegInf => PosInf
  | PosInf, NegInf | NegInf, PosInf => NegInf
  end.

Definition div (a b : number) : number :=
  match a, b with
  | NaN, _ | _, NaN => NaN
  | Fin x, Fin y => if Qeq_bool y 0 then signedInf x true else Fin (x / y)
  | Fin _, (PosInf | NegInf) => Fin 0
  | PosInf, Fin y => if Qle_bool 0 y then PosInf else NegInf
  | NegInf, Fin y => if Qle_bool 0 y then NegInf else PosInf
  | (PosInf | NegInf), (PosInf | NegInf) => NaN
  end.

Definition isFinite (a : number) : bool :=
  match a with Fin _ => true | _ => false end.

(** Equality of numbers up to the representation of the rational. *)
Definition eq (a b : number) : Prop :=
  match a, b with
  | Fin x, Fin y => (x == y)%Q
  | PosInf, PosInf | NegInf, NegInf | NaN, NaN => True
  | _, _ => False
  end.

(** *** [Number.prototype.toFixed]

    For a finite [x] the digits are those of the integer [n] for which
    [n / 10^f - |x|] is closest to zero, the larger [n] on a tie.  This is
    the rule below 1e21, applied here to the exact rational; [F64.toFixed]
    applies it to the value of a double and has the exponent notation of
    larger values. *)

Definition digits (n : Z) : string :=
  NilEmpty.string_of_uint (N.to_uint (Z.to_N n)).

Fixpoint zeros (k : nat) : string :=
  match k with
  | O => EmptyString
  | S k' => String "0" (zeros k')
  end.

Definition padStart (width : nat) (s : string) : string :=
  (zeros (width - String.length s) ++ s)%string.

Definition scaled (x : Q) (f : nat) : Z :=
  Qfloor (Qabs x * inject_Z (10 ^ Z.of_nat f) + (1 # 2)).

Definition toFixed (a : number) (f : nat) : string :=
  match a with
  | NaN => "NaN"
  | PosInf => "Infinity"
  | NegInf => "-Infinity"
  | Fin x =>
      let n := scaled x f in
      let m := if (n =? 0)%Z then "0"%string else digits n in
      let body :=
        match f with
        | O => m
        | _ =>
            let m' := padStart (S f) m in
            let k := String.length m' in
            (substring 0 (k - f) m' ++ "." ++ substring (k - f) f m')%string
        end in
      if Qlt_le_dec x 0 then ("-" ++ body)%string else body
  end.

End Number.

Declare Scope number_scope.
Delimit Scope number_scope with num.
Bind Scope number_scope with number.
Infix "+" := Number.add : number_scope.
Infix "-" := Number.sub : number_scope.
Infix "*" := Number.mul : number_scope.
Infix "/" := Number.div : number_scope.
Notation "a ≈ b" := (Number.eq a b) (at level 70) : number_scope.


(** ** Results of code that may throw *)

Inductive result (A : Type) : Type :=
| Ok (a : A)
| Throw (message : string).
Arguments Ok {A} a.
Arguments Throw {A} message.

(** ** Dates

    Time values and the calendar functions of ECMAScript (section "Time
    Values and Time Range"), on integers.  The time value of a [Date] object
    is [Some t], or [None] for an invalid date (NaN). *)

Module Date.

Definition msPerDay : Z := 86400000.
Definition msPerHour : Z := 3600000.
Definition msPerMinute : Z := 60000.
Definition msPerSecond : Z := 1000.

Definition Day (t : Z) : Z := t / msPerDay.
Definition TimeWithinDay (t : Z) : Z := t mod msPerDay.

Definition DaysInYear (y : Z) : Z :=
  if negb (y mod 4 =? 0) then 365
  else if negb (y mod 100 =? 0) then 366
  else if negb (y mod 400 =? 0) then 365
  else 366.

Definition DayFromYear (y : Z) : Z :=
  365 * (y - 1970) + (y - 1969) / 4 - (y - 1901) / 100 + (y - 1601) / 400.

Definition TimeFromYear (y : Z) : Z := msPerDay * DayFromYear y.

(** The largest [y] with [TimeFromYear y <= t]: an estimate from the
    length of the 400-year cycle, off by at most one year. *)
Definition YearFromTime (t : Z) : Z :=
  let y := 1970 + (Day t * 400) / 146097 in
  if TimeFromYear (y + 1) <=? t then y + 1
  else if TimeFromYear y <=? t then y
  else y - 1.

Definition InLeapYear (t : Z) : Z :=
  if DaysInYear (YearFromTime t) =? 366 then 1 else 0.

Definition DayWithinYear (t : Z) : Z :=
  Day t - DayFromYear (YearFromTime t).

Definition MonthFromTime (t : Z) : Z :=
  let d := DayWithinYear t in
  let leap := InLeapYear t in
  if d <? 31 then 0
  else if d <? 59 + leap then 1
  else if d <? 90 + leap then 2
  else if d <? 120 + leap then 3
  else if d <? 151 + leap then 4
  else if d <? 181 + leap then 5
  else if d <? 212 + leap then 6
  else if d <? 243 + leap then 7
  else if d <? 273 + leap then 8
  else if d <? 304 + leap then 9
  else if d <? 334 + leap then 10
  else 11.

(** Days of the year that precede month [m] (0-based). *)
Definition monthStart (m leap : Z) : Z :=
  if m =? 0 then 0
  else if m =? 1 then 31
  else if m =? 2 then 59 + leap
  else if m =? 3 then 90 + leap
  else if m =? 4 then 120 + leap
  else if m =? 5 then 151 + leap
  else if m =? 6 then 181 + leap
  else if m =? 7 then 212 + leap
  else if m =? 8 then 243 + leap
  else if m =? 9 then 273 + leap
  else if m =? 10 then 304 + leap
  else 334 + leap.

Definition DateFromTime (t : Z) : Z :=
  DayWithinYear t - monthStart (MonthFromTime t) (InLeapYear t) + 1.

Definition HourFromTime (t : Z) : Z := (t / msPerHour) mod 24.
Definition MinFromTime (t : Z) : Z := (t / msPerMinute) mod 60.
Definition SecFromTime (t : Z) : Z := (t / msPerSecond) mod 60.
Definition msFromTime (t : Z) : Z := t mod msPerSecond.

(** [MakeDay year month date]: the day number of the first day of the
    month, plus [date - 1]. *)
Definition MakeDay (year month date : Z) : Z :=
  let ym := year + month / 12 in
  let mn := month mod 12 in
  let leap := if DaysInYear ym =? 366 then 1 else 0 in
  DayFromYear ym + monthStart mn leap + date - 1.

Definition MakeDate (day time : Z) : Z := day * msPerDay + time.

Definition TimeClip (t : Z) : option Z :=
  if Z.abs t <=? 8640000000000000 then Some t else None.

Section Host.

(** The host's local time zone adjustment, in milliseconds: the offset of
    local time at UTC time [t] ([isUTC = true]) or at local time [t]
    ([isUTC = false]). *)
Variable LocalTZA : Z -> bool -> Z.

Definition LocalTime (t : Z) : Z := t + LocalTZA t true.
Definition UTC (t : Z) : Z := t - LocalTZA t false.

(** [Date.prototype.getDate], [getMonth], [getTime] on a valid date. *)
Definition getDate (t : Z) : Z := DateFromTime (LocalTime t).
Definition getMonth (t : Z) : Z := MonthFromTime (LocalTime t).
Definition getTime (t : Z) : Z := t.

(** [Date.prototype.setDate]: the new time value of the object. *)
Definition setDate (t : Z) (dt : Z) : option Z :=
  let l := LocalTime t in
  let newDate :=
    MakeDate (MakeDay (YearFromTime l) (MonthFromTime l) dt)
             (TimeWithinDay l) in
  TimeClip (UTC newDate).

End Host.

(** [Date.prototype.toISOString] on a valid date (UTC fields). *)
Definition pad (width : nat) (n : Z) : string :=
  Number.padStart width (if n =? 0 then "0"%string else Number.digits n).

Definition isoYear (y : Z) : string :=
  if (0 <=? y) && (y <=? 9999) then pad 4 y
  else if y <? 0 then ("-" ++ pad 6 (- y))%string
  else ("+" ++ pad 6 y)%string.

Definition toISOString (t : Z) : string :=
  (isoYear (YearFromTime t) ++ "-" ++ pad 2 (MonthFromTime t + 1) ++ "-"
     ++ pad 2 (DateFromTime t) ++ "T" ++ pad 2 (HourFromTime t) ++ ":"
     ++ pad 2 (MinFromTime t) ++ ":" ++ pad 2 (SecFromTime t) ++ "."
     ++ pad 3 (msFromTime t) ++ "Z")%string.

End Date.

(** [s.split(sep)[0]] for a one-character separator: the text before its
    first occurrence, all of [s] when there is none. *)
Fixpoint splitFirst (sep : ascii) (s : string) : string :=
  match s with
  | EmptyString => EmptyString
  | String c rest =>
      if Ascii.eqb c sep then EmptyString else String c (splitFirst sep rest)
  end.


(** ** Data points and the season table *)

Record DataPoint : Type := {
  date : string;
  timestamp : Z;
  month : Z;
  season : string;
  redBCc : number;
  ecFTIR : number;
  fabs : number;
  mac : number
}.

Definition seasons : list string :=
  ["Dry Season"; "Belg Rainy Season"; "Kiremt Rainy Season"]%string.

(** The object literal [seasonMonths]; [Object.entries] lists its keys in
    insertion order. *)
Definition seasonMonths : list (string * list Z) :=
  [("Dry Season", [10; 11; 12; 1; 2]);
   ("Belg Rainy Season", [3; 4; 5]);
   ("Kiremt Rainy Season", [6; 7; 8; 9])]%string.

Definition includes (months : list Z) (m : Z) : bool :=
  existsb (Z.eqb m) months.

(** The loop that determines the season: the first entry whose months
    include [m], the empty string when there is none. *)
Fixpoint seasonOf (entries : list (string * list Z)) (m : Z) : string :=
  match entries with
  | [] => EmptyString
  | (s, months) :: rest => if includes months m then s else seasonOf rest m
  end.

(** [new Date('2022-01-01')]: a date-only form is read as UTC midnight. *)
Definition startDate : Z := 1640995200000.

Definition sampleSize : Z := 103.

(** ** The generator *)

Section Generator.

Variable LocalTZA : Z -> bool -> Z.

(** The draws of [Math.random], in the order they are made. *)
Variable random : nat -> Q.

Definition Math_random (pos : nat) : number * nat :=
  (Fin (random pos), S pos).

(** One round of the loop body for index [i], reading draws from [pos].
    [toISOString] throws a RangeError on an invalid date, and then no
    record is built. *)
Definition iteration (i : Z) (pos : nat) : result (DataPoint * nat) :=
  match Date.setDate LocalTZA startDate
          (Date.getDate LocalTZA startDate + i * 3) with
  | None => Throw "Invalid time value"
  | Some date =>
      let month := Date.getMonth LocalTZA date + 1 in
      let season := seasonOf seasonMonths month in
      let '(r, pos) := Math_random pos in
      let baseValue := (Fin 2 + r * Fin 8)%num in
      let seasonalFactor := Fin 1.0 in
      let seasonalFactor :=
        if String.eqb season "Dry Season" then Fin 1.2
        else seasonalFactor in
      let seasonalFactor :=
        if String.eqb season "Belg Rainy Season" then Fin 0.8
        else seasonalFactor in
      let '(r, pos) := Math_random pos in
      let redBCc :=
        (baseValue * seasonalFactor * (Fin 1 + (r - Fin 0.5) * Fin 0.3))%num in
      let '(r, pos) := Math_random pos in
      let ecFTIR :=
        (baseValue * Fin 0.9 * (Fin 1 + (r - Fin 0.5) * Fin 0.4))%num in
      let '(r, pos) := Math_random pos in
      let fabs :=
        (baseValue * Fin 5 * (Fin 1 + (r - Fin 0.5) * Fin 0.5))%num in
      let mac := (fabs / ecFTIR)%num in
      Ok ({| date := splitFirst "T" (Date.toISOString date);
             timestamp := Date.getTime date;
             month := month;
             season := season;
             redBCc := redBCc;
             ecFTIR := ecFTIR;
             fabs := fabs;
             mac := mac |}, pos)
  end.

(** [for (let i = ...; i < sampleSize; i++)] with [n] rounds left. *)
Fixpoint forLoop (n : nat) (i : Z) (pos : nat) (sampleData : list DataPoint)
  : result (list DataPoint) :=
  match n with
  | O => Ok sampleData
  | S n' =>
      match iteration i pos with
      | Ok (point, pos') => forLoop n' (i + 1) pos' (sampleData ++ [point])
      | Throw message => Throw message
      end
  end.

(** The generator with the loop bound as an argument. *)
Definition generateSampleDataOf (size : Z) : result (list DataPoint) :=
  forLoop (Z.to_nat size) 0 0%nat [].

Definition generateSampleData : result (list DataPoint) :=
  generateSampleDataOf sampleSize.

End Generator.

(** ** Component state *)

Record State : Type := {
  data : list DataPoint;
  loading : bool;
  error : option string;
  view : string;
  seasonFilter : string
}.

Definition initialState : State :=
  {| data := []; loading := true; error := None;
     view := "scatter"; seasonFilter := "all" |}.

(** The effect run once after the first render. *)
Definition effect (LocalTZA : Z -> bool -> Z) (random : nat -> Q) (st : State)
  : State :=
  match generateSampleData LocalTZA random with
  | Ok sampleData =>
      {| data := sampleData; loading := false; error := error st;
         view := view st; seasonFilter := seasonFilter st |}
  | Throw message =>
      {| data := data st; loading := false; error := Some message;
         view := view st; seasonFilter := seasonFilter st |}
  end.

Definition setSeasonFilter (f : string) (st : State) : State :=
  {| data := data st; loading := loading st; error := error st;
     view := view st; seasonFilter := f |}.

Definition filteredData (data : list DataPoint) (seasonFilter : string)
  : list DataPoint :=
  List.filter
    (fun item => String.eqb seasonFilter "all"
                 || String.eqb (season item) seasonFilter)
    data.

(** ** [Array.prototype.sort]

    The sort is stable; for a comparator that orders the elements
    consistently this fixes its result, computed here by insertion.  The
    comparator returns a number, of which only the sign is used. *)

Section Sort.

Context {A : Type}.
Variable compareFn : A -> A -> Z.

Fixpoint sortInsert (x : A) (l : list A) : list A :=
  match l with
  | [] => [x]
  | y :: l' => if 0 <? compareFn x y then y :: sortInsert x l' else x :: l
  end.

Fixpoint Array_sort (l : list A) : list A :=
  match l with
  | [] => []
  | x :: l' => sortInsert x (Array_sort l')
  end.

End Sort.

Definition byTimestamp (a b : DataPoint) : Z := timestamp a - timestamp b.

(** [renderTimeSeriesPlot]: the data handed to the line chart. *)
Definition sortedData (filtered : list DataPoint) : list DataPoint :=
  Array_sort byTimestamp filtered.

(** ** MAC analysis *)

Module MacItem.
Record t : Type := { date : string; mac : number; season : string }.
End MacItem.

Record SeasonStats : Type := { avg : string; count : nat }.

Record MACAnalysis : Type := {
  avgMAC : number;
  overallText : string;
  overallCount : nat;
  seasonalMACs : gmap string SeasonStats
}.

Definition macData (filtered : list DataPoint) : list MacItem.t :=
  map (fun item => {| MacItem.date := date item;
                      MacItem.mac := mac item;
                      MacItem.season := season item |}) filtered.

(** [values.reduce((sum, val) => sum + val, 0)] *)
Definition reduceSum (values : list number) : number :=
  fold_left Number.add values (Fin 0).

(** The body of [seasons.forEach]. *)
Definition seasonalStep (items : list MacItem.t)
  (acc : gmap string SeasonStats) (s : string) : gmap string SeasonStats :=
  let seasonData :=
    map MacItem.mac
      (List.filter (fun item => String.eqb (MacItem.season item) s) items) in
  if (0 <? length seasonData)%nat then
    let avg := (reduceSum seasonData / Number.ofNat (length seasonData))%num in
    <[s := {| avg := Number.toFixed avg 2; count := length seasonData |}]> acc
  else acc.

Definition renderMACAnalysis (filtered : list DataPoint) : MACAnalysis :=
  let items := macData filtered in
  let macValues := map MacItem.mac items in
  let avgMAC := (reduceSum macValues / Number.ofNat (length macValues))%num in
  {| avgMAC := avgMAC;
     overallText := Number.toFixed avgMAC 2;
     overallCount := length macValues;
     seasonalMACs := fold_left (seasonalStep items) seasons ∅ |}.

(** ** Data summary *)

Definition seasonCount (data : list DataPoint) (s : string) : nat :=
  length (List.filter (fun item => String.eqb (season item) s) data).

(** [count / data.length * 100] *)
Definition percentage (data : list DataPoint) (s : string) : number :=
  (Number.ofNat (seasonCount data s) / Number.ofNat (length data)
   * Fin 100)%num.

Record DistributionEntry : Type := {
  entrySeason : string;
  entryCount : nat;
  entryPercent : string
}.

Record Summary : Type := {
  totalDays : nat;
  selectionDays : nat;
  distribution : list DistributionEntry
}.

(** The figures of the summary panel.  The component draws the panel
    after its two early returns only; [Double.render] has them, and
    [Double.dataSummary] the percentages as the engine prints them. *)
Definition dataSummary (st : State) : Summary :=
  {| totalDays := length (data st);
     selectionDays := length (filteredData (data st) (seasonFilter st));
     distribution :=
       map (fun s => {| entrySeason := s;
                        entryCount := seasonCount (data st) s;
                        entryPercent :=
                          Number.toFixed (percentage (data st) s) 1 |})
           seasons |}.


(** * Double precision *)

(** ** Numbers as binary64 values *)

Module F64.

(** A count as a number, exact below 2^53 (an array holds fewer than 2^32
    elements). *)
Definition ofNat (n : nat) : float :=
  PrimFloat.of_uint63 (Uint63.of_Z (Z.of_nat n)).

(** The rational a finite double stands for. *)
Definition valueOf (x : float) : option Q :=
  match Prim2SF x with
  | S754_zero _ => Some 0%Q
  | S754_finite s m e =>
      Some (inject_Z (if s then Z.neg m else Z.pos m) * Qpower 2 e)%Q
  | S754_infinity _ | S754_nan => None
  end.

Definition valueOr0 (x : float) : Q :=
  match valueOf x with Some q => q | None => 0%Q end.

Definition evenMantissa (x : float) : bool :=
  match Prim2SF x with
  | S754_finite _ m _ => Z.even (Z.pos m)
  | _ => true
  end.

(** Whether the rational [r] rounds to the positive finite double [x]
    (to nearest, ties to even). *)
Definition roundsTo (x : float) (r : Q) : bool :=
  let xq := valueOr0 x in
  let lo := valueOr0 (PrimFloat.next_down x) in
  let midLo := ((xq + lo) / 2)%Q in
  let midHi :=
    match valueOf (PrimFloat.next_up x) with
    | Some hi => ((xq + hi) / 2)%Q
    | None => (xq + (xq - lo) / 2)%Q
    end in
  (negb (Qle_bool r midLo) && negb (Qle_bool midHi r))
  || (evenMantissa x && (Qeq_bool r midLo || Qeq_bool r midHi)).

(** The shortest decimal [s * 10^(n - k)], [s] of [k] digits, that rounds
    to [x]; of two of the same length the closer one, the even one on a
    tie.  [N] is the integer value of [x], of [n0] digits. *)
Fixpoint shortest (fuel : nat) (x : float) (N n0 k : Z) : Z * Z :=
  let p := 10 ^ (n0 - k) in
  let s0 := N / p in
  let s1 := s0 + 1 in
  let ok0 := roundsTo x (inject_Z (s0 * p)) in
  let ok1 := roundsTo x (inject_Z (s1 * p)) in
  let pick (s : Z) :=
    if s =? 10 ^ k then (10 ^ (k - 1), n0 + 1) else (s, n0) in
  match fuel with
  | O => pick s0
  | S fuel' =>
      if ok0 && ok1 then
        let d0 := N - s0 * p in
        let d1 := s1 * p - N in
        if d0 <? d1 then pick s0
        else if d1 <? d0 then pick s1
        else if Z.even s0 then pick s0 else pick s1
      else if ok0 then pick s0
      else if ok1 then pick s1
      else shortest fuel' x N n0 (k + 1)
  end.

(** [Number::toString] of a finite double of at least 1e21: exponent
    notation on the shortest digits that read back as the same double. *)
Definition toStringLarge (x : float) : string :=
  let N := Qfloor (valueOr0 x) in
  let n0 := Z.of_nat (String.length (Number.digits N)) in
  let '(s, n) := shortest 17 x N n0 1 in
  let ds := Number.digits s in
  let mantissa :=
    match ds with
    | String c (String c' rest) => String c (String "." (String c' rest))
    | _ => ds
    end in
  (mantissa ++ "e+" ++ Number.digits (n - 1))%string.

(** [Number.prototype.toFixed] on a double: the digits of its exact
    value. *)
Definition toFixed (x : float) (f : nat) : string :=
  match Prim2SF x with
  | S754_nan => "NaN"
  | S754_infinity false => "Infinity"
  | S754_infinity true => "-Infinity"
  | S754_zero _ => Number.toFixed (Fin 0) f
  | S754_finite negative _ _ =>
      let q := valueOr0 x in
      if Qle_bool (inject_Z (10 ^ 21)) (Qabs q)
      then if negative
           then ("-" ++ toStringLarge (PrimFloat.abs x))%string
           else toStringLarge x
      else Number.toFixed (Fin q) f
  end.

End F64.

(** ** The component on doubles *)

Module Double.

Record DataPoint : Type := {
  date : string;
  timestamp : Z;
  month : Z;
  season : string;
  redBCc : float;
  ecFTIR : float;
  fabs : float;
  mac : float
}.

Section Generator.

Variable LocalTZA : Z -> bool -> Z.

(** The draws of [Math.random], doubles in [0,1), in the order they are
    made. *)
Variable random : nat -> float.

Definition Math_random (pos : nat) : float * nat := (random pos, S pos).

Definition iteration (i : Z) (pos : nat) : result (DataPoint * nat) :=
  match Date.setDate LocalTZA startDate
          (Date.getDate LocalTZA startDate + i * 3) with
  | None => Throw "Invalid time value"
  | Some date =>
      let month := Date.getMonth LocalTZA date + 1 in
      let season := seasonOf seasonMonths month in
      let '(r, pos) := Math_random pos in
      let baseValue := (2 + r * 8)%float in
      let seasonalFactor := 1.0%float in
      let seasonalFactor :=
        if String.eqb season "Dry Season" then 1.2%float
        else seasonalFactor in
      let seasonalFactor :=
        if String.eqb season "Belg Rainy Season" then 0.8%float
        else seasonalFactor in
      let '(r, pos) := Math_random pos in
      let redBCc := (baseValue * seasonalFactor * (1 + (r - 0.5) * 0.3))%float in
      let '(r, pos) := Math_random pos in
      let ecFTIR := (baseValue * 0.9 * (1 + (r - 0.5) * 0.4))%float in
      let '(r, pos) := Math_random pos in
      let fabs := (baseValue * 5 * (1 + (r - 0.5) * 0.5))%float in
      let mac := (fabs / ecFTIR)%float in
      Ok ({| date := splitFirst "T" (Date.toISOString date);
             timestamp := Date.getTime date;
             month := month;
             season := season;
             redBCc := redBCc;
             ecFTIR := ecFTIR;
             fabs := fabs;
             mac := mac |}, pos)
  end.

Fixpoint forLoop (n : nat) (i : Z) (pos : nat) (sampleData : list DataPoint)
  : result (list DataPoint) :=
  match n with
  | O => Ok sampleData
  | S n' =>
      match iteration i pos with
      | Ok (point, pos') => forLoop n' (i + 1) pos' (sampleData ++ [point])
      | Throw message => Throw message
      end
  end.

Definition generateSampleDataOf (size : Z) : result (list DataPoint) :=
  forLoop (Z.to_nat size) 0 0%nat [].

Definition generateSampleData : result (list DataPoint) :=
  generateSampleDataOf sampleSize.

End Generator.

Record State : Type := {
  data : list DataPoint;
  loading : bool;
  error : option string;
  view : string;
  seasonFilter : string
}.

Definition initialState : State :=
  {| data := []; loading := true; error := None;
     view := "scatter"; seasonFilter := "all" |}.

Definition effect (LocalTZA : Z -> bool -> Z) (random : nat -> float)
  (st : State) : State :=
  match generateSampleData LocalTZA random with
  | Ok sampleData =>
      {| data := sampleData; loading := false; error := error st;
         view := view st; seasonFilter := seasonFilter st |}
  | Throw message =>
      {| data := data st; loading := false; error := Some message;
         view := view st; seasonFilter := seasonFilter st |}
  end.


Definition setSeasonFilter (f : string) (st : State) : State :=
  {| data := data st; loading := loading st; error := error st;
     view := view st; seasonFilter := f |}.

Definition filteredData (data : list DataPoint) (seasonFilter : string)
  : list DataPoint :=
  List.filter
    (fun item => String.eqb seasonFilter "all"
                 || String.eqb (season item) seasonFilter)
    data.

Definition byTimestamp (a b : DataPoint) : Z := timestamp a - timestamp b.

Definition sortedData (filtered : list DataPoint) : list DataPoint :=
  Array_sort byTimestamp filtered.

Record MacItem : Type := {
  itemDate : string;
  itemMac : float;
  itemSeason : string
}.

Record MACAnalysis : Type := {
  avgMAC : float;
  overallText : string;
  overallCount : nat;
  seasonalMACs : gmap string SeasonStats
}.

Definition macData (filtered : list DataPoint) : list MacItem :=
  map (fun item => {| itemDate := date item;
                      itemMac := mac item;
                      itemSeason := season item |}) filtered.

(** [values.reduce((sum, val) => sum + val, 0)] *)
Definition reduceSum (values : list float) : float :=
  fold_left PrimFloat.add values 0%float.

(** [reduce(...) / values.length] *)
Definition average (values : list float) : float :=
  (reduceSum values / F64.ofNat (length values))%float.

Definition seasonalStep (items : list MacItem)
  (acc : gmap string SeasonStats) (s : string) : gmap string SeasonStats :=
  let seasonData :=
    map itemMac
      (List.filter (fun item => String.eqb (itemSeason item) s) items) in
  if (0 <? length seasonData)%nat then
    let avg := average seasonData in
    <[s := {| avg := F64.toFixed avg 2; count := length seasonData |}]> acc
  else acc.

Definition renderMACAnalysis (filtered : list DataPoint) : MACAnalysis :=
  let items := macData filtered in
  let macValues := map itemMac items in
  let avgMAC := average macValues in
  {| avgMAC := avgMAC;
     overallText := F64.toFixed avgMAC 2;
     overallCount := length macValues;
     seasonalMACs := fold_left (seasonalStep items) seasons ∅ |}.

Definition seasonCount (data : list DataPoint) (s : string) : nat :=
  length (List.filter (fun item => String.eqb (season item) s) data).

(** [count / data.length * 100] *)
Definition percentage (count total : nat) : float :=
  (F64.ofNat count / F64.ofNat total * 100)%float.

Definition dataSummary (st : State) : Summary :=
  {| totalDays := length (data st);
     selectionDays := length (filteredData (data st) (seasonFilter st));
     distribution :=
       map (fun s =>
              let count := seasonCount (data st) s in
              {| entrySeason := s;
                 entryCount := count;
                 entryPercent :=
                   F64.toFixed (percentage count (length (data st))) 1 |})
           seasons |}.








End Double.

(** ** Definitions used to state the properties *)

(** The values of one record as rational expressions of its four draws. *)
Definition baseValueOf (u0 : Q) : Q := 2 + u0 * 8.
Definition ecFTIROf (u0 u2 : Q) : Q :=
  baseValueOf u0 * 0.9 * (1 + (u2 - 0.5) * 0.4).
Definition fabsOf (u0 u3 : Q) : Q :=
  baseValueOf u0 * 5 * (1 + (u3 - 0.5) * 0.5).

(** The time value [setDate] computes for index [i], before [TimeClip]. *)
Definition timeOf (LocalTZA : Z -> bool -> Z) (i : Z) : Z :=
  Date.UTC LocalTZA
    (Date.LocalTime LocalTZA startDate + i * 3 * Date.msPerDay).

(** Hosts whose local time differs from UTC by less than a day. *)
Definition boundedZone (LocalTZA : Z -> bool -> Z) : Prop :=
  forall t isUTC, - Date.msPerDay < LocalTZA t isUTC < Date.msPerDay.


(** The seasons whose month list holds [m]. *)
Definition seasonsOfMonth (m : Z) : list string :=
  map fst (List.filter (fun entry => includes (snd entry) m) seasonMonths).

(** The subsequence of the records of season [s], by recursion on the
    sequence: what the filter is specified to return. *)
Fixpoint recordsOfSeason (s : string) (records : list DataPoint)
  : list DataPoint :=
  match records with
  | [] => []
  | r :: rest =>
      if decide (season r = s) then r :: recordsOfSeason s rest
      else recordsOfSeason s rest
  end.

(** Sum and arithmetic mean of a sequence of numbers, by recursion on the
    sequence. *)
Fixpoint total (values : list number) : number :=
  match values with
  | [] => Fin 0
  | v :: rest => (v + total rest)%num
  end.

Definition arithmeticMean (values : list number) : number :=
  (total values / Number.ofNat (length values))%num.

(** The entry stored for a season that has records. *)
Definition seasonEntry (records : list DataPoint) (s : string) : SeasonStats :=
  {| avg := Number.toFixed
              (arithmeticMean (map mac (recordsOfSeason s records))) 2;
     count := seasonCount records s |}.

(** The sum of the counts held in the map. *)
Definition countSum (stats : gmap string SeasonStats) : nat :=
  map_fold (fun _ entry acc => (count entry + acc)%nat) 0%nat stats.

(** Whether a record's season is one of the table. *)
Definition inTable (r : DataPoint) : bool :=
  existsb (String.eqb (season r)) seasons.

(** A record with a given time stamp, season and [mac], for concrete
    runs. *)
Definition point (t : Z) (s : string) (m : number) : DataPoint :=
  {| date := EmptyString; timestamp := t; month := 1; season := s;
     redBCc := Fin 1; ecFTIR := Fin 1; fabs := m; mac := m |}.

(** Two hosts and two streams of draws used for concrete runs. *)
Definition utcZone (t : Z) (isUTC : bool) : Z := 0.
Definition westZone (t : Z) (isUTC : bool) : Z := -18000000.
Definition midDraws (k : nat) : Q := 0.5.
Definition lowDraws (k : nat) : Q := 0.



(** ** Definitions used to state the properties in double precision *)



(** A host on daylight-saving time: the Eastern zone of the United States
    in 2022, five hours behind UTC, four from 13 March 07:00 UTC to
    6 November 06:00 UTC.  A local time that is skipped or repeated is read
    with the offset in force before the change. *)
Definition easternZone (t : Z) (isUTC : bool) : Z :=
  if isUTC then
    if (1647154800000 <=? t) && (t <? 1667714400000)
    then -14400000 else -18000000
  else
    if (1647140400000 <=? t) && (t <? 1667700000000)
    then -14400000 else -18000000.

(** Hosts on which every generated date reads back, in local time, as the
    local time of the start date plus three days per index: none of these
    local times falls into an hour skipped by a change of offset. *)
Definition steadyClock (LocalTZA : Z -> bool -> Z) : Prop :=
  forall k, 0 <= k < sampleSize ->
    Date.LocalTime LocalTZA (timeOf LocalTZA k)
    = Date.LocalTime LocalTZA startDate + k * 3 * Date.msPerDay.

(** The seasons of 103 dates three days apart, the first on day [day0]
    since the epoch. *)
Definition seasonsFrom (day0 : Z) : list string :=
  map (fun k =>
         seasonOf seasonMonths
           (Date.MonthFromTime ((day0 + 3 * Z.of_nat k) * Date.msPerDay) + 1))
      (seq 0 103).

Definition countOf (s : string) (l : list string) : nat :=
  length (List.filter (fun x => String.eqb x s) l).

(** Streams of draws in double precision: a constant one, and one that
    starts with four given draws. *)
Definition halfDraws (k : nat) : float := 0.5%float.


(** The largest double below 1. *)
Definition belowOne : float := 0x1.fffffffffffffp-1%float.

(** Whether a record's season is one of the table. *)
Definition inTableD (r : Double.DataPoint) : bool :=
  existsb (String.eqb (Double.season r)) seasons.



(** The records of season [s], by recursion on the sequence. *)
Fixpoint recordsOfSeasonD (s : string) (records : list Double.DataPoint)
  : list Double.DataPoint :=
  match records with
  | [] => []
  | r :: rest =>
      if decide (Double.season r = s) then r :: recordsOfSeasonD s rest
      else recordsOfSeasonD s rest
  end.

(** The mean of a sequence of doubles as the engine computes it: the
    values added one by one from the left, starting from 0, and the sum
    divided by their number, each operation rounded. *)
Fixpoint sumFrom (acc : float) (values : list float) : float :=
  match values with
  | [] => acc
  | v :: rest => sumFrom (acc + v)%float rest
  end.

Definition meanD (values : list float) : float :=
  (sumFrom 0 values / F64.ofNat (length values))%float.

(** The entry stored for a season that has records. *)
Definition seasonEntryD (records : list Double.DataPoint) (s : string)
  : SeasonStats :=
  {| avg := F64.toFixed (meanD (map Double.mac (recordsOfSeasonD s records))) 2;
     count := length (recordsOfSeasonD s records) |}.

Definition nearHalfDraws (k : nat) : float := 0.50001%float.

(** The values of one record that enter [mac], as double expressions of
    its draws. *)
Definition baseValueD (u0 : float) : float := (2 + u0 * 8)%float.
Definition ecFTIRD (u0 u2 : float) : float :=
  (baseValueD u0 * 0.9 * (1 + (u2 - 0.5) * 0.4))%float.
Definition fabsD (u0 u3 : float) : float :=
  (baseValueD u0 * 5 * (1 + (u3 - 0.5) * 0.5))%float.

(** Whether a double is finite with a value between two rationals. *)
Definition withinD (lo hi : Q) (x : float) : bool :=
  match F64.valueOf x with
  | Some q => Qle_bool lo q && Qle_bool q hi
  | None => false
  end.

(** The two ends of the range of a draw. *)
Definition endDraws : list float := [0%float; belowOne].

(** ** The date sort of the MAC chart *)

Section MacSort.

(** [new Date(s).getTime()] on the host: [None] for an invalid date. *)
Variable parseDate : string -> option Z.

(** [(a, b) => new Date(a.date).getTime() - new Date(b.date).getTime()];
    the sort reads a NaN result as 0. *)
Definition byDate (a b : MacItem.t) : Z :=
  match parseDate (MacItem.date a), parseDate (MacItem.date b) with
  | Some x, Some y => x - y
  | _, _ => 0
  end.

(** [renderMACAnalysis]: the data handed to the MAC line chart. *)
Definition macSortedData (items : list MacItem.t) : list MacItem.t :=
  Array_sort byDate items.

(** The two points of the dashed line of the average: the first and the
    last date of the sorted data ([undefined] when there is none). *)
Definition averageLine (items : list MacItem.t) (average : number)
  : list (option string * number) :=
  let sorted := macSortedData items in
  [(MacItem.date <$> head sorted, average);
   (MacItem.date <$> last sorted, average)].

End MacSort.

(** What ECMAScript fixes about parsing: the date-only form [YYYY-MM-DD]
    is read as UTC midnight of that day.  Stated on the strings the
    generator makes. *)
Definition parsesISODates (parseDate : string -> option Z) : Prop :=
  forall t,
    0 <= Date.YearFromTime t <= 9999 ->
    parseDate (splitFirst "T" (Date.toISOString t))
    = Some (Date.Day t * Date.msPerDay).

(** A parser of the date-only form, and of nothing else. *)
Definition isDigit (c : ascii) : bool :=
  (48 <=? nat_of_ascii c)%nat && (nat_of_ascii c <=? 57)%nat.

Fixpoint allDigits (s : string) : bool :=
  match s with
  | EmptyString => true
  | String c rest => isDigit c && allDigits rest
  end.

Fixpoint parseDigits (s : string) (acc : Z) : option Z :=
  match s with
  | EmptyString => Some acc
  | String c rest =>
      if isDigit c
      then parseDigits rest (10 * acc + Z.of_nat (nat_of_ascii c - 48))
      else None
  end.

Fixpoint noChar (sep : ascii) (s : string) : bool :=
  match s with
  | EmptyString => true
  | String c rest => negb (Ascii.eqb c sep) && noChar sep rest
  end.

Fixpoint splitOnce (sep : ascii) (s : string) : option (string * string) :=
  match s with
  | EmptyString => None
  | String c rest =>
      if Ascii.eqb c sep then Some (EmptyString, rest)
      else match splitOnce sep rest with
           | Some (a, b) => Some (String c a, b)
           | None => None
           end
  end.

Definition parseISODate (s : string) : option Z :=
  match splitOnce "-" s with
  | Some (ys, rest) =>
      match splitOnce "-" rest with
      | Some (ms, ds) =>
          if (String.length ys =? 4)%nat && (String.length ms =? 2)%nat
             && (String.length ds =? 2)%nat
          then
            match parseDigits ys 0, parseDigits ms 0, parseDigits ds 0 with
            | Some y, Some m, Some d =>
                if (1 <=? m) && (m <=? 12) && (1 <=? d) && (d <=? 31)
                then Some (Date.MakeDate (Date.MakeDay y (m - 1) d) 0)
                else None
            | _, _, _ => None
            end
          else None
      | None => None
      end
  | None => None
  end.

(** A number printed on [width] digits reads back as itself. *)
Definition digitsOk (width : nat) (n : Z) : bool :=
  (String.length (Date.pad width n) =? width)%nat
  && allDigits (Date.pad width n)
  && match parseDigits (Date.pad width n) 0 with
     | Some v => v =? n
     | None => false
     end.

(** * Properties *)

(** ** Calendar arithmetic *)

Module DateFacts.
Import Date.

Lemma MonthFromTime_range (t : Z) : 0 <= MonthFromTime t <= 11.
Proof.
  unfold MonthFromTime.
  repeat match goal with
         | |- context [if ?b then _ else _] => destruct b
         end; lia.
Qed.

Lemma DayFromYear_bounds (y : Z) :
  146097 * (y - 1970) - 506 <= 400 * DayFromYear y
  <= 146097 * (y - 1970) + 589.
Proof. unfold DayFromYear. Z.to_euclidean_division_equations. lia. Qed.

(** [YearFromTime] is the year of ECMAScript: the one whose first instant
    is the latest not after [t]. *)
Lemma YearFromTime_spec (t : Z) :
  TimeFromYear (YearFromTime t) <= t < TimeFromYear (YearFromTime t + 1).
Proof.
  unfold YearFromTime, TimeFromYear.
  set (d := Day t).
  set (y := 1970 + d * 400 / 146097).
  assert (Hd : msPerDay * d <= t < msPerDay * (d + 1)).
  { unfold d, Day, msPerDay. Z.to_euclidean_division_equations. lia. }
  assert (Hy : 146097 * (y - 1970) <= 400 * d < 146097 * (y - 1970) + 146097).
  { unfold y. Z.to_euclidean_division_equations. lia. }
  pose proof (DayFromYear_bounds (y - 1)) as Hlo.
  pose proof (DayFromYear_bounds (y + 1 + 1)) as Hhi.
  unfold msPerDay in *.
  destruct (Z.leb_spec0 (86400000 * DayFromYear (y + 1)) t);
    [|destruct (Z.leb_spec0 (86400000 * DayFromYear y) t)].
  - lia.
  - lia.
  - replace (y - 1 + 1) with y by lia. lia.
Qed.

Lemma DayFromYear_step4 (y : Z) :
  (y + 1 - 1969) / 4 - (y - 1969) / 4 = if y mod 4 =? 0 then 1 else 0.
Proof.
  destruct (Z.eqb_spec (y mod 4) 0); Z.to_euclidean_division_equations; lia.
Qed.

Lemma DayFromYear_step100 (y : Z) :
  (y + 1 - 1901) / 100 - (y - 1901) / 100 = if y mod 100 =? 0 then 1 else 0.
Proof.
  destruct (Z.eqb_spec (y mod 100) 0); Z.to_euclidean_division_equations; lia.
Qed.

Lemma DayFromYear_step400 (y : Z) :
  (y + 1 - 1601) / 400 - (y - 1601) / 400 = if y mod 400 =? 0 then 1 else 0.
Proof.
  destruct (Z.eqb_spec (y mod 400) 0); Z.to_euclidean_division_equations; lia.
Qed.

(** The leap-year rule agrees with the day count of the years. *)
Lemma DaysInYear_DayFromYear (y : Z) :
  DayFromYear (y + 1) - DayFromYear y = DaysInYear y.
Proof.
  pose proof (DayFromYear_step4 y) as H4.
  pose proof (DayFromYear_step100 y) as H100.
  pose proof (DayFromYear_step400 y) as H400.
  unfold DayFromYear, DaysInYear.
  destruct (Z.eqb_spec (y mod 4) 0) as [E4|E4],
           (Z.eqb_spec (y mod 100) 0) as [E100|E100],
           (Z.eqb_spec (y mod 400) 0) as [E400|E400]; cbn [negb];
    try lia.
  all: Z.to_euclidean_division_equations; lia.
Qed.

(** The day within the year stays within the year. *)
Lemma DayWithinYear_range (t : Z) :
  0 <= DayWithinYear t < DaysInYear (YearFromTime t).
Proof.
  pose proof (YearFromTime_spec t) as Hy.
  rewrite <- DaysInYear_DayFromYear.
  unfold DayWithinYear, TimeFromYear, Day, msPerDay in *.
  Z.to_euclidean_division_equations. lia.
Qed.

Lemma MakeDay_DateFromTime (t k : Z) :
  MakeDay (YearFromTime t) (MonthFromTime t) (DateFromTime t + k) = Day t + k.
Proof.
  pose proof (MonthFromTime_range t) as Hm.
  unfold MakeDay, DateFromTime, DayWithinYear, InLeapYear.
  rewrite Z.div_small, Z.mod_small, Z.add_0_r by lia.
  lia.
Qed.

Lemma setDate_getDate (LocalTZA : Z -> bool -> Z) (t k : Z) :
  setDate LocalTZA t (getDate LocalTZA t + k)
  = TimeClip (UTC LocalTZA (LocalTime LocalTZA t + k * msPerDay)).
Proof.
  unfold setDate, getDate.
  rewrite MakeDay_DateFromTime.
  f_equal. f_equal. unfold MakeDate, Day, TimeWithinDay.
  unfold msPerDay. Z.to_euclidean_division_equations. lia.
Qed.

End DateFacts.

Example startDate_is_2022_01_01 :
  Date.toISOString startDate = "2022-01-01T00:00:00.000Z"%string.
Proof. vm_compute. reflexivity. Qed.

Example leap_day_2000 :
  splitFirst "T" (Date.toISOString 951782400000) = "2000-02-29"%string.
Proof. vm_compute. reflexivity. Qed.

Example toFixed_examples :
  Number.toFixed (Fin (1 # 3)) 2 = "0.33"%string
  /\ Number.toFixed (Fin 99.96) 1 = "100.0"%string
  /\ Number.toFixed (Fin (-1 # 1000)) 2 = "-0.00"%string
  /\ Number.toFixed (Fin 0 / Fin 0)%num 2 = "NaN"%string.
Proof. repeat split. Qed.

(** ** The generator, record by record *)

Section GeneratorFacts.

Variable LocalTZA : Z -> bool -> Z.
Variable random : nat -> Q.

Lemma iteration_Ok (i : Z) (pos : nat) (r : DataPoint) (pos' : nat) :
  iteration LocalTZA random i pos = Ok (r, pos') ->
  pos' = (pos + 4)%nat
  /\ Date.TimeClip (timeOf LocalTZA i) = Some (timestamp r)
  /\ month r = Date.MonthFromTime (Date.LocalTime LocalTZA (timestamp r)) + 1
  /\ season r = seasonOf seasonMonths (month r)
  /\ ecFTIR r = Fin (ecFTIROf (random pos) (random (pos + 2)))
  /\ fabs r = Fin (fabsOf (random pos) (random (pos + 3)))
  /\ mac r = (fabs r / ecFTIR r)%num.
Proof.
  unfold iteration, timeOf.
  rewrite DateFacts.setDate_getDate.
  destruct (Date.TimeClip _) as [t|] eqn:Ht; [|discriminate].
  cbn [Math_random]. intros [= <- <-]. cbn [timestamp month season ecFTIR fabs mac].
  replace (pos + 4)%nat with (S (S (S (S pos)))) by lia.
  replace (pos + 2)%nat with (S (S pos)) by lia.
  replace (pos + 3)%nat with (S (S (S pos))) by lia.
  repeat split; reflexivity.
Qed.

Lemma iteration_valid (i : Z) (pos : nat) (t : Z) :
  Date.TimeClip (timeOf LocalTZA i) = Some t ->
  exists r, iteration LocalTZA random i pos = Ok (r, (pos + 4)%nat).
Proof.
  unfold iteration, timeOf. rewrite DateFacts.setDate_getDate.
  intros ->. cbn [Math_random].
  replace (pos + 4)%nat with (S (S (S (S pos)))) by lia.
  eexists. reflexivity.
Qed.

(** The loop appends one record per round, made from consecutive indices
    and consecutive groups of four draws. *)
Lemma forLoop_lookup (n : nat) :
  forall (i : Z) (pos : nat) (acc recs : list DataPoint),
    forLoop LocalTZA random n i pos acc = Ok recs ->
    exists new,
      recs = acc ++ new /\ length new = n
      /\ forall (k : nat) (r : DataPoint),
          new !! k = Some r ->
          exists pos',
            iteration LocalTZA random (i + Z.of_nat k) (pos + 4 * k)
            = Ok (r, pos').
Proof.
  induction n as [|n IH]; intros i pos acc recs; cbn [forLoop].
  - intros [= <-]. exists []. rewrite app_nil_r. repeat split.
    intros k r Hk. rewrite lookup_nil in Hk. discriminate.
  - destruct (iteration LocalTZA random i pos) as [[point pos1]|] eqn:Hit;
      [|discriminate].
    intros Hloop. destruct (IH _ _ _ _ Hloop) as (new & -> & Hlen & Hnew).
    pose proof (iteration_Ok _ _ _ _ Hit) as (-> & _).
    exists (point :: new). rewrite <- app_assoc. repeat split.
    + cbn. lia.
    + intros [|k] r Hk.
      * cbn in Hk. injection Hk as <-. exists (pos + 4)%nat.
        rewrite Z.add_0_r, Nat.mul_0_r, Nat.add_0_r. exact Hit.
      * cbn in Hk. destruct (Hnew k r Hk) as [pos' Hpos'].
        exists pos'.
        replace (i + Z.of_nat (S k)) with (i + 1 + Z.of_nat k) by lia.
        replace (pos + 4 * S k)%nat with (pos + 4 + 4 * k)%nat by lia.
        exact Hpos'.
Qed.

(** The loop completes when every date it computes is a valid one. *)
Lemma forLoop_total (n : nat) :
  forall (i : Z) (pos : nat) (acc : list DataPoint),
    (forall j, i <= j < i + Z.of_nat n ->
               Date.TimeClip (timeOf LocalTZA j) <> None) ->
    exists recs, forLoop LocalTZA random n i pos acc = Ok recs.
Proof.
  induction n as [|n IH]; intros i pos acc Hvalid; cbn [forLoop].
  - eauto.
  - destruct (Date.TimeClip (timeOf LocalTZA i)) as [t|] eqn:Ht.
    + destruct (iteration_valid i pos t Ht) as [r ->].
      apply IH. intros j Hj. apply Hvalid. lia.
    + exfalso. apply (Hvalid i); [lia | exact Ht].
Qed.

Lemma generateSampleDataOf_lookup (size : Z) (recs : list DataPoint) :
  generateSampleDataOf LocalTZA random size = Ok recs ->
  length recs = Z.to_nat size
  /\ forall (k : nat) (r : DataPoint),
      recs !! k = Some r ->
      exists pos',
        iteration LocalTZA random (Z.of_nat k) (4 * k) = Ok (r, pos').
Proof.
  unfold generateSampleDataOf. intros H.
  destruct (forLoop_lookup _ _ _ _ _ H) as (new & -> & Hlen & Hnew).
  cbn [app]. split; [exact Hlen|].
  intros k r Hk. destruct (Hnew k r Hk) as [pos' Hpos'].
  exists pos'. exact Hpos'.
Qed.

Lemma timeOf_valid (i : Z) :
  boundedZone LocalTZA -> 0 <= i <= 1000000 ->
  Date.TimeClip (timeOf LocalTZA i) = Some (timeOf LocalTZA i).
Proof.
  intros Hz Hi. unfold Date.TimeClip.
  destruct (Z.leb_spec0 (Z.abs (timeOf LocalTZA i)) 8640000000000000) as [|Hn];
    [reflexivity|].
  exfalso. apply Hn. unfold timeOf, Date.UTC, Date.LocalTime, startDate.
  pose proof (Hz 1640995200000 true).
  pose proof (Hz (1640995200000 + LocalTZA 1640995200000 true
                  + i * 3 * Date.msPerDay) false).
  unfold Date.msPerDay in *. lia.
Qed.

Lemma generateSampleDataOf_total (size : Z) :
  boundedZone LocalTZA -> size <= 1000000 ->
  exists recs, generateSampleDataOf LocalTZA random size = Ok recs.
Proof.
  intros Hz Hsize. apply forLoop_total. intros j Hj.
  rewrite timeOf_valid by (auto; lia). discriminate.
Qed.

End GeneratorFacts.

Lemma utcZone_bounded : boundedZone utcZone.
Proof. intros t b. unfold utcZone, Date.msPerDay. lia. Defined.

Lemma midDraws_unit (k : nat) : (0 <= midDraws k < 1)%Q.
Proof. unfold midDraws. split; [discriminate | reflexivity]. Defined.

(** ** The generator *)

(** C8: with a loop bound [size <= 0] the generator makes no round: it
    returns the empty sequence and throws nothing. *)
Theorem generateSampleDataOf_nonpositive
  (LocalTZA : Z -> bool -> Z) (random : nat -> Q) (size : Z) :
  size <= 0 -> generateSampleDataOf LocalTZA random size = Ok [].
Proof.
  intros Hsize. unfold generateSampleDataOf.
  replace (Z.to_nat size) with 0%nat by lia. reflexivity.
Qed.

Lemma generateSampleDataOf_nonpositive_witness :
  -3 <= 0 /\ generateSampleDataOf utcZone midDraws (-3) = Ok [].
Proof.
  split; [lia | apply generateSampleDataOf_nonpositive; lia].
Defined.

Section Values.

Variable LocalTZA : Z -> bool -> Z.
Variable random : nat -> Q.
Hypothesis random_unit : forall k, (0 <= random k < 1)%Q.

Lemma baseValueOf_bounds (k : nat) : (2 <= baseValueOf (random k) < 10)%Q.
Proof. pose proof (random_unit k). unfold baseValueOf. lra. Qed.

Lemma ecFTIROf_positive (j k : nat) :
  (0 < ecFTIROf (random j) (random k))%Q.
Proof.
  pose proof (baseValueOf_bounds j) as Hb.
  pose proof (random_unit k) as Hk.
  unfold ecFTIROf.
  apply Qmult_lt_0_compat; [apply Qmult_lt_0_compat|]; lra.
Qed.

Lemma record_values (size : Z) (recs : list DataPoint) (k : nat)
  (r : DataPoint) :
  generateSampleDataOf LocalTZA random size = Ok recs ->
  recs !! k = Some r ->
  let e := ecFTIROf (random (4 * k)) (random (4 * k + 2)) in
  let f := fabsOf (random (4 * k)) (random (4 * k + 3)) in
  ecFTIR r = Fin e /\ fabs r = Fin f /\ mac r = Fin (f / e) /\ (0 < e)%Q.
Proof.
  intros Hgen Hk e f.
  destruct (generateSampleDataOf_lookup _ _ _ _ Hgen) as [_ Hrecs].
  destruct (Hrecs k r Hk) as [pos' Hit].
  destruct (iteration_Ok _ _ _ _ _ _ Hit) as (_ & _ & _ & _ & He & Hf & Hm).
  pose proof (ecFTIROf_positive (4 * k) (4 * k + 2)) as Hpos.
  fold e in He, Hpos. fold f in Hf.
  repeat split; try assumption.
  rewrite Hm, He, Hf. cbn [Number.div].
  destruct (Qeq_bool e 0) eqn:E; [|reflexivity].
  apply Qeq_bool_eq in E. lra.
Qed.

End Values.

(** C2: whatever the draws in [0,1), every generated record has a finite,
    strictly positive [ecFTIR]; its [mac] is the finite quotient
    [fabs / ecFTIR], the division by zero never being taken.  Under the
    host assumption the generator does return its records. *)
Theorem generated_ecFTIR_positive
  (LocalTZA : Z -> bool -> Z) (random : nat -> Q) (size : Z) :
  (forall k, (0 <= random k < 1)%Q) ->
  (forall recs,
      generateSampleDataOf LocalTZA random size = Ok recs ->
      Forall (fun r => exists e f,
                  ecFTIR r = Fin e /\ (0 < e)%Q /\ fabs r = Fin f
                  /\ mac r = Fin (f / e)
                  /\ Number.isFinite (mac r) = true) recs)
  /\ (boundedZone LocalTZA -> size <= 1000000 ->
      exists recs,
        generateSampleDataOf LocalTZA random size = Ok recs
        /\ length recs = Z.to_nat size).
Proof.
  intros Hunit. split.
  - intros recs Hgen. apply Forall_lookup_2. intros k r Hk.
    destruct (record_values LocalTZA random Hunit size recs k r Hgen Hk)
      as (He & Hf & Hm & Hpos).
    eexists _, _. repeat split; eauto. rewrite Hm. reflexivity.
  - intros Hz Hsize.
    destruct (generateSampleDataOf_total LocalTZA random size Hz Hsize)
      as [recs Hgen].
    exists recs. split; [exact Hgen|].
    apply (generateSampleDataOf_lookup _ _ _ _ Hgen).
Qed.

Lemma generated_ecFTIR_positive_witness :
  exists recs,
    generateSampleData utcZone midDraws = Ok recs
    /\ length recs = 103%nat
    /\ Forall (fun r => exists e f,
                   ecFTIR r = Fin e /\ (0 < e)%Q /\ fabs r = Fin f
                   /\ mac r = Fin (f / e)
                   /\ Number.isFinite (mac r) = true) recs.
Proof.
  destruct (generated_ecFTIR_positive utcZone midDraws sampleSize
              midDraws_unit) as [Hall Htotal].
  destruct (Htotal utcZone_bounded ltac:(unfold sampleSize; lia))
    as (recs & Hgen & Hlen).
  exists recs. repeat split; [exact Hgen | exact Hlen | exact (Hall recs Hgen)].
Defined.


(** ** The season table *)

Lemma month_cases (m : Z) :
  1 <= m <= 12 ->
  m = 1 \/ m = 2 \/ m = 3 \/ m = 4 \/ m = 5 \/ m = 6 \/ m = 7 \/ m = 8
  \/ m = 9 \/ m = 10 \/ m = 11 \/ m = 12.
Proof. lia. Qed.

Lemma seasonsOfMonth_single (m : Z) :
  1 <= m <= 12 -> seasonsOfMonth m = [seasonOf seasonMonths m].
Proof.
  intros Hm. destruct (month_cases m Hm) as
    [-> | [-> | [-> | [-> | [-> | [-> | [-> | [-> | [-> | [-> | [-> | ->]]]]]]]]]]];
    reflexivity.
Qed.

Lemma seasonOf_in_seasons (m : Z) :
  1 <= m <= 12 ->
  In (seasonOf seasonMonths m) seasons /\ seasonOf seasonMonths m <> EmptyString.
Proof.
  intros Hm. destruct (month_cases m Hm) as
    [-> | [-> | [-> | [-> | [-> | [-> | [-> | [-> | [-> | [-> | [-> | ->]]]]]]]]]]];
    (split; [cbn; tauto | discriminate]).
Qed.

(** C3: the month lists of the three seasons partition 1..12: together
    they are a rearrangement of 1..12, so each month lies in exactly one
    season, the one the lookup loop returns; hence every generated record
    has a month in 1..12 and, as its season, the non-empty name of the one
    season holding that month. *)
Theorem seasonMonths_partition :
  map fst seasonMonths = seasons
  /\ Permutation (concat (map snd seasonMonths))
       [1; 2; 3; 4; 5; 6; 7; 8; 9; 10; 11; 12]
  /\ (forall m, 1 <= m <= 12 ->
        exists s, seasonsOfMonth m = [s] /\ In s seasons
                  /\ seasonOf seasonMonths m = s /\ s <> EmptyString)
  /\ (forall LocalTZA random size recs,
        generateSampleDataOf LocalTZA random size = Ok recs ->
        Forall (fun r => 1 <= month r <= 12
                         /\ seasonsOfMonth (month r) = [season r]
                         /\ In (season r) seasons
                         /\ season r <> EmptyString) recs).
Proof.
  split; [reflexivity|]. split.
  - cbn.
    apply Permutation_sym.
    change [1; 2; 3; 4; 5; 6; 7; 8; 9; 10; 11; 12]
      with ([1; 2] ++ [3; 4; 5; 6; 7; 8; 9] ++ [10; 11; 12]).
    change [10; 11; 12; 1; 2; 3; 4; 5; 6; 7; 8; 9]
      with ([10; 11; 12] ++ [1; 2] ++ [3; 4; 5; 6; 7; 8; 9]).
    rewrite (app_assoc [1; 2]). apply Permutation_app_comm.
  - split.
    + intros m Hm. exists (seasonOf seasonMonths m).
      pose proof (seasonOf_in_seasons m Hm) as [Hin Hne].
      repeat split; auto using seasonsOfMonth_single.
    + intros LocalTZA random size recs Hgen.
      apply Forall_lookup_2. intros k r Hk.
      destruct (generateSampleDataOf_lookup _ _ _ _ Hgen) as [_ Hrecs].
      destruct (Hrecs k r Hk) as [pos' Hit].
      destruct (iteration_Ok _ _ _ _ _ _ Hit) as (_ & _ & Hmonth & Hseason & _).
      assert (Hm : 1 <= month r <= 12).
      { rewrite Hmonth.
        pose proof (DateFacts.MonthFromTime_range
                      (Date.LocalTime LocalTZA (timestamp r))). lia. }
      pose proof (seasonOf_in_seasons _ Hm) as [Hin Hne].
      rewrite Hseason.
      repeat split; auto using seasonsOfMonth_single; lia.
Qed.

Lemma seasonMonths_partition_witness :
  (exists s, seasonsOfMonth 7 = [s] /\ In s seasons
             /\ seasonOf seasonMonths 7 = s /\ s <> EmptyString)
  /\ exists recs,
      generateSampleDataOf westZone lowDraws 2 = Ok recs
      /\ Forall (fun r => 1 <= month r <= 12
                          /\ seasonsOfMonth (month r) = [season r]
                          /\ In (season r) seasons
                          /\ season r <> EmptyString) recs.
Proof.
  destruct seasonMonths_partition as (_ & _ & Hmonth & Hgen).
  split; [apply Hmonth; lia|].
  destruct (generateSampleDataOf westZone lowDraws 2) as [recs|] eqn:Hrun;
    [|vm_compute in Hrun; discriminate].
  exists recs. split; [reflexivity|].
  apply (Hgen westZone lowDraws 2). exact Hrun.
Defined.

(** ** The season filter *)

Lemma filter_all {A : Type} (f : A -> bool) (l : list A) :
  (forall x, f x = true) -> List.filter f l = l.
Proof.
  intros Hf. induction l as [|x l IH]; cbn; [reflexivity|].
  rewrite Hf, IH. reflexivity.
Qed.

Lemma filter_sublist {A : Type} (f : A -> bool) (l : list A) :
  sublist (List.filter f l) l.
Proof.
  induction l as [|x l IH]; cbn; [constructor|].
  destruct (f x); [apply sublist_skip | apply sublist_cons]; exact IH.
Qed.

Lemma filteredData_season (records : list DataPoint) (s : string) :
  s <> "all"%string ->
  filteredData records s = recordsOfSeason s records.
Proof.
  intros Hs. unfold filteredData.
  apply String.eqb_neq in Hs. rewrite Hs. cbn [orb].
  induction records as [|r rest IH]; cbn; [reflexivity|].
  destruct (decide (season r = s)) as [E|E].
  - apply String.eqb_eq in E. rewrite E, IH. reflexivity.
  - apply String.eqb_neq in E. rewrite E, IH. reflexivity.
Qed.

Lemma seasons_not_all (s : string) : In s seasons -> s <> "all"%string.
Proof. cbn. intros [<- | [<- | [<- | []]]]; discriminate. Qed.

(** C4: with the filter ["all"] the records come back unchanged; with a
    season [s] the result is the subsequence, in the input order, of
    exactly the records whose season is [s]. *)
Theorem filteredData_spec (records : list DataPoint) :
  filteredData records "all" = records
  /\ forall s, In s seasons ->
       filteredData records s = recordsOfSeason s records
       /\ sublist (filteredData records s) records
       /\ (forall r, In r (filteredData records s)
                     <-> In r records /\ season r = s).
Proof.
  split.
  - unfold filteredData. apply filter_all. reflexivity.
  - intros s Hs. pose proof (seasons_not_all s Hs) as Hne.
    split; [apply filteredData_season; exact Hne|].
    split; [apply filter_sublist|].
    intros r. unfold filteredData. rewrite filter_In.
    apply String.eqb_neq in Hne. rewrite Hne. cbn [orb].
    rewrite String.eqb_eq. reflexivity.
Qed.

Lemma filteredData_spec_witness :
  let records := [point 1 "Dry Season" (Fin 5);
                  point 2 "Belg Rainy Season" (Fin 6);
                  point 3 "Dry Season" (Fin 7)] in
  filteredData records "Dry Season"
  = recordsOfSeason "Dry Season" records
  /\ sublist (filteredData records "Dry Season") records
  /\ (forall r, In r (filteredData records "Dry Season")
                <-> In r records /\ season r = "Dry Season"%string).
Proof.
  intros records.
  destruct (filteredData_spec records) as [_ H].
  apply (H "Dry Season"%string). cbn. tauto.
Defined.

(** ** Sorting by time stamp *)

Section SortFacts.

Context {A : Type}.
Variable key : A -> Z.
Variable compareFn : A -> A -> Z.
Hypothesis compareFn_key : forall a b, compareFn a b = key a - key b.

Lemma sortInsert_Permutation (x : A) (l : list A) :
  Permutation (sortInsert compareFn x l) (x :: l).
Proof.
  induction l as [|y l IH]; cbn; [reflexivity|].
  destruct (0 <? compareFn x y); [|reflexivity].
  rewrite IH. apply perm_swap.
Qed.

Lemma Array_sort_Permutation (l : list A) :
  Permutation (Array_sort compareFn l) l.
Proof.
  induction l as [|x l IH]; cbn; [reflexivity|].
  rewrite sortInsert_Permutation, IH. reflexivity.
Qed.

Lemma sortInsert_sorted (x : A) (l : list A) :
  StronglySorted (fun a b => key a <= key b) l ->
  StronglySorted (fun a b => key a <= key b) (sortInsert compareFn x l).
Proof.
  induction 1 as [|y l Hl IH Hy]; cbn.
  - repeat constructor.
  - destruct (Z.ltb_spec0 0 (compareFn x y)) as [Hgt|Hle];
      rewrite compareFn_key in *.
    + constructor; [exact IH|].
      rewrite sortInsert_Permutation. constructor; [lia | exact Hy].
    + constructor; [constructor; assumption|].
      constructor; [lia|].
      eapply Forall_impl; [exact Hy|].
      cbn. intros z Hz. lia.
Qed.

Lemma Array_sort_sorted (l : list A) :
  StronglySorted (fun a b => key a <= key b) (Array_sort compareFn l).
Proof.
  induction l as [|x l IH]; cbn; [constructor|].
  apply sortInsert_sorted, IH.
Qed.

(** Insertion never moves [x] past an element with the same key. *)
Lemma sortInsert_stable (t : Z) (x : A) (l : list A) :
  List.filter (fun a => key a =? t) (sortInsert compareFn x l)
  = List.filter (fun a => key a =? t) (x :: l).
Proof.
  induction l as [|y l IH]; [reflexivity|].
  cbn [sortInsert].
  destruct (Z.ltb_spec0 0 (compareFn x y)) as [Hgt|Hle]; [|reflexivity].
  cbn [List.filter] in *. rewrite IH.
  rewrite compareFn_key in Hgt.
  destruct (Z.eqb_spec (key x) t), (Z.eqb_spec (key y) t);
    try reflexivity; lia.
Qed.

Lemma Array_sort_stable (t : Z) (l : list A) :
  List.filter (fun a => key a =? t) (Array_sort compareFn l)
  = List.filter (fun a => key a =? t) l.
Proof.
  induction l as [|x l IH]; [reflexivity|].
  cbn [Array_sort]. rewrite sortInsert_stable.
  cbn [List.filter]. rewrite IH. reflexivity.
Qed.

(** A sequence already in order is left as it is. *)
Lemma Array_sort_sorted_id (l : list A) :
  StronglySorted (fun a b => key a <= key b) l -> Array_sort compareFn l = l.
Proof.
  induction 1 as [|x l Hl IH Hx]; [reflexivity|].
  cbn [Array_sort]. rewrite IH.
  destruct Hx as [|y l Hxy _]; [reflexivity|].
  cbn [sortInsert].
  destruct (Z.ltb_spec0 0 (compareFn x y)) as [Hgt|Hle]; [|reflexivity].
  rewrite compareFn_key in Hgt. lia.
Qed.

End SortFacts.

(** C6: the sort by time stamp returns a rearrangement of its input with
    non-decreasing time stamps, in which the records of any one time stamp
    appear in their input order. *)
Theorem sortedData_stable_sort (records : list DataPoint) :
  Permutation (sortedData records) records
  /\ StronglySorted (fun a b => timestamp a <= timestamp b)
       (sortedData records)
  /\ forall t,
      List.filter (fun r => timestamp r =? t) (sortedData records)
      = List.filter (fun r => timestamp r =? t) records.
Proof.
  split; [apply Array_sort_Permutation|].
  split; [apply (Array_sort_sorted timestamp); reflexivity|].
  intros t. apply (Array_sort_stable timestamp). reflexivity.
Qed.

Example sortedData_example :
  sortedData [point 3 "a" (Fin 1); point 1 "b" (Fin 2); point 3 "c" (Fin 3);
              point 1 "d" (Fin 4); point 2 "e" (Fin 5)]
  = [point 1 "b" (Fin 2); point 1 "d" (Fin 4); point 2 "e" (Fin 5);
     point 3 "a" (Fin 1); point 3 "c" (Fin 3)].
Proof. reflexivity. Qed.

(** ** Chronological order of the generated records *)

Lemma TimeClip_Some (t u : Z) : Date.TimeClip t = Some u -> u = t.
Proof.
  unfold Date.TimeClip. destruct (_ <=? _); [|discriminate].
  intros [= <-]. reflexivity.
Qed.

Lemma timeOf_increasing (LocalTZA : Z -> bool -> Z) (i j : Z) :
  boundedZone LocalTZA -> i < j -> timeOf LocalTZA i < timeOf LocalTZA j.
Proof.
  intros Hz Hij. unfold timeOf, Date.UTC.
  set (l := Date.LocalTime LocalTZA startDate).
  pose proof (Hz (l + i * 3 * Date.msPerDay) false).
  pose proof (Hz (l + j * 3 * Date.msPerDay) false).
  unfold Date.msPerDay in *. lia.
Qed.

Lemma timeOf_fixed_offset (LocalTZA : Z -> bool -> Z) (c i : Z) :
  (forall t isUTC, LocalTZA t isUTC = c) ->
  timeOf LocalTZA i = startDate + 3 * i * Date.msPerDay.
Proof.
  intros Hc. unfold timeOf, Date.UTC, Date.LocalTime.
  rewrite !Hc. lia.
Qed.

Lemma generated_timestamp (LocalTZA : Z -> bool -> Z) (random : nat -> Q)
  (size : Z) (recs : list DataPoint) (k : nat) (r : DataPoint) :
  generateSampleDataOf LocalTZA random size = Ok recs ->
  recs !! k = Some r ->
  timestamp r = timeOf LocalTZA (Z.of_nat k).
Proof.
  intros Hgen Hk.
  destruct (generateSampleDataOf_lookup _ _ _ _ Hgen) as [_ Hrecs].
  destruct (Hrecs k r Hk) as [pos' Hit].
  destruct (iteration_Ok _ _ _ _ _ _ Hit) as (_ & Hclip & _).
  apply TimeClip_Some in Hclip. exact Hclip.
Qed.

Lemma StronglySorted_of_lookup {A : Type} (R : A -> A -> Prop) (l : list A) :
  (forall (i j : nat) (a b : A),
      (i < j)%nat -> l !! i = Some a -> l !! j = Some b -> R a b) ->
  StronglySorted R l.
Proof.
  induction l as [|x l IH]; intros H; constructor.
  - apply IH. intros i j a b Hij Ha Hb.
    apply (H (S i) (S j)); [lia | exact Ha | exact Hb].
  - apply Forall_lookup_2. intros j b Hb.
    apply (H 0%nat (S j)); [lia | reflexivity | exact Hb].
Qed.

Lemma StronglySorted_filter {A : Type} (R : A -> A -> Prop) (f : A -> bool)
  (l : list A) :
  StronglySorted R l -> StronglySorted R (List.filter f l).
Proof.
  induction 1 as [|x l Hl IH Hx]; cbn; [constructor|].
  destruct (f x); [|exact IH].
  constructor; [exact IH|].
  rewrite List.Forall_forall in *. intros y Hy.
  apply Hx. apply filter_In in Hy. tauto.
Qed.

(** C9 (amended): the generated records come in strictly increasing time
    stamps: the [k]-th one is stamped with the UTC time of the local start
    time plus [3 * k] days, which is the start date plus [3 * k] days on a
    host with a fixed offset from UTC.  So sorting any season-filtered
    subsequence of them by time stamp changes nothing. *)
Theorem generated_chronological
  (LocalTZA : Z -> bool -> Z) (random : nat -> Q) (size : Z) :
  boundedZone LocalTZA ->
  (size <= 1000000 ->
   exists recs, generateSampleDataOf LocalTZA random size = Ok recs)
  /\ forall recs,
      generateSampleDataOf LocalTZA random size = Ok recs ->
      (forall (k : nat) a b,
          recs !! k = Some a -> recs !! S k = Some b ->
          timestamp a < timestamp b)
      /\ (forall (k : nat) r,
            recs !! k = Some r -> timestamp r = timeOf LocalTZA (Z.of_nat k))
      /\ (forall c, (forall t isUTC, LocalTZA t isUTC = c) ->
            forall (k : nat) r,
              recs !! k = Some r ->
              timestamp r = startDate + 3 * Z.of_nat k * Date.msPerDay)
      /\ forall seasonFilter,
          sortedData (filteredData recs seasonFilter)
          = filteredData recs seasonFilter.
Proof.
  intros Hz. split; [apply generateSampleDataOf_total; exact Hz|].
  intros recs Hgen.
  assert (Hlt : forall (i j : nat) a b,
             (i < j)%nat -> recs !! i = Some a -> recs !! j = Some b ->
             timestamp a < timestamp b).
  { intros i j a b Hij Ha Hb.
    rewrite (generated_timestamp _ _ _ _ _ _ Hgen Ha).
    rewrite (generated_timestamp _ _ _ _ _ _ Hgen Hb).
    apply timeOf_increasing; [exact Hz | lia]. }
  split; [|split; [|split]].
  - intros k a b Ha Hb. apply (Hlt k (S k)); [lia | exact Ha | exact Hb].
  - intros k r Hr. exact (generated_timestamp _ _ _ _ _ _ Hgen Hr).
  - intros c Hc k r Hr.
    rewrite (generated_timestamp _ _ _ _ _ _ Hgen Hr).
    apply (timeOf_fixed_offset LocalTZA c), Hc.
  - intros seasonFilter. unfold sortedData, filteredData.
    apply (Array_sort_sorted_id timestamp); [reflexivity|].
    apply StronglySorted_filter, StronglySorted_of_lookup.
    intros i j a b Hij Ha Hb. pose proof (Hlt i j a b Hij Ha Hb). lia.
Qed.

Lemma generated_chronological_witness :
  exists recs,
    generateSampleData utcZone midDraws = Ok recs
    /\ (forall (k : nat) a b,
           recs !! k = Some a -> recs !! S k = Some b ->
           timestamp a < timestamp b)
    /\ (forall (k : nat) r,
           recs !! k = Some r ->
           timestamp r = startDate + 3 * Z.of_nat k * Date.msPerDay)
    /\ sortedData (filteredData recs "Kiremt Rainy Season")
       = filteredData recs "Kiremt Rainy Season".
Proof.
  destruct (generated_chronological utcZone midDraws sampleSize
              utcZone_bounded) as [Htotal Hall].
  destruct (Htotal ltac:(unfold sampleSize; lia)) as [recs Hgen].
  destruct (Hall recs Hgen) as (Hlt & _ & Hfixed & Hsort).
  exists recs. split; [exact Hgen|]. split; [exact Hlt|].
  split; [apply (Hfixed 0); reflexivity | apply Hsort].
Defined.

Lemma easternZone_bounded : boundedZone easternZone.
Proof.
  intros t isUTC. unfold easternZone, Date.msPerDay.
  destruct isUTC; destruct (_ && _); lia.
Qed.

(** On a host on daylight-saving time the time stamps are not the start
    date plus three days per record.  In the Eastern zone the record of
    index 24, dated 2022-03-13, the day the clocks go forward, is stamped
    one hour short of the start date plus 72 days. *)
Lemma generated_timestamp_daylight_saving :
  boundedZone easternZone
  /\ exists recs r,
      generateSampleData easternZone midDraws = Ok recs
      /\ recs !! 24%nat = Some r
      /\ date r = "2022-03-13"%string
      /\ timestamp r = 1647212400000
      /\ startDate + 3 * 24 * Date.msPerDay = 1647216000000
      /\ timestamp r <> startDate + 3 * 24 * Date.msPerDay.
Proof.
  split; [exact easternZone_bounded|].
  eexists _, _. split; [vm_compute; reflexivity|].
  split; [reflexivity|]. split; [reflexivity|]. split; [reflexivity|].
  split; [reflexivity|].
  cbn [timestamp]. unfold startDate, Date.msPerDay. lia.
Qed.

(** ** Sums and means *)

Module NumberFacts.

Lemma Qplus_assoc_eq (x y z : Q) : (x + (y + z))%Q = (x + y + z)%Q.
Proof.
  destruct x as [a b], y as [c d], z as [e f]. unfold Qplus. cbn.
  f_equal; [|apply Pos.mul_assoc].
  rewrite !Pos2Z.inj_mul. ring.
Qed.

Lemma Qplus_0_r_eq (x : Q) : (x + 0)%Q = x.
Proof.
  destruct x as [a b]. unfold Qplus. cbn.
  f_equal; [lia | apply Pos.mul_1_r].
Qed.

Lemma Qplus_0_l_eq (x : Q) : (0 + x)%Q = x.
Proof. destruct x as [a b]. unfold Qplus. cbn. f_equal. lia. Qed.

Lemma add_assoc (a b c : number) : (a + (b + c))%num = (a + b + c)%num.
Proof.
  destruct a, b, c; cbn; try reflexivity.
  f_equal. apply Qplus_assoc_eq.
Qed.

Lemma add_0_r (a : number) : (a + Fin 0)%num = a.
Proof. destruct a; cbn; try reflexivity. f_equal. apply Qplus_0_r_eq. Qed.

Lemma add_0_l (a : number) : (Fin 0 + a)%num = a.
Proof. destruct a; cbn; try reflexivity. f_equal. apply Qplus_0_l_eq. Qed.

Lemma fold_left_add (values : list number) (a : number) :
  fold_left Number.add values a = (a + total values)%num.
Proof.
  revert a. induction values as [|v rest IH]; intros a; cbn.
  - symmetry. apply add_0_r.
  - rewrite IH. symmetry. apply add_assoc.
Qed.

Lemma reduceSum_total (values : list number) :
  reduceSum values = total values.
Proof. unfold reduceSum. rewrite fold_left_add. apply add_0_l. Qed.


End NumberFacts.

(** ** Seasonal statistics *)

Lemma macData_season_values (records : list DataPoint) (s : string) :
  map MacItem.mac
    (List.filter (fun item => String.eqb (MacItem.season item) s)
       (macData records))
  = map mac (List.filter (fun r => String.eqb (season r) s) records).
Proof.
  unfold macData.
  induction records as [|r rest IH]; cbn; [reflexivity|].
  destruct (String.eqb (season r) s); cbn; rewrite IH; reflexivity.
Qed.

Lemma filter_season_recordsOfSeason (records : list DataPoint) (s : string) :
  List.filter (fun r => String.eqb (season r) s) records
  = recordsOfSeason s records.
Proof.
  induction records as [|r rest IH]; cbn; [reflexivity|].
  destruct (decide (season r = s)) as [E|E].
  - apply String.eqb_eq in E. rewrite E, IH. reflexivity.
  - apply String.eqb_neq in E. rewrite E, IH. reflexivity.
Qed.

Lemma seasonalStep_lookup (records : list DataPoint)
  (acc : gmap string SeasonStats) (x s : string) :
  seasonalStep (macData records) acc x !! s
  = if decide (x = s /\ (0 < seasonCount records x)%nat)
    then Some (seasonEntry records x) else acc !! s.
Proof.
  unfold seasonalStep, seasonEntry, seasonCount, arithmeticMean.
  rewrite macData_season_values, NumberFacts.reduceSum_total, length_map.
  rewrite <- filter_season_recordsOfSeason, length_map.
  destruct (Nat.ltb_spec0 0
              (length (List.filter (fun r => String.eqb (season r) x) records)))
    as [Hpos|Hzero].
  - rewrite lookup_insert.
    destruct (decide (x = s)) as [->|Hne].
    + rewrite decide_True by tauto. reflexivity.
    + rewrite decide_False by tauto. reflexivity.
  - rewrite decide_False by tauto. reflexivity.
Qed.

Lemma seasonalFold_lookup (records : list DataPoint) (l : list string) :
  forall (acc : gmap string SeasonStats) (s : string),
    fold_left (seasonalStep (macData records)) l acc !! s
    = if decide (s ∈ l /\ (0 < seasonCount records s)%nat)
      then Some (seasonEntry records s) else acc !! s.
Proof.
  induction l as [|x l IH]; intros acc s; cbn [fold_left].
  - rewrite decide_False; [reflexivity|].
    rewrite elem_of_nil. tauto.
  - rewrite IH, seasonalStep_lookup.
    destruct (decide (s ∈ l /\ (0 < seasonCount records s)%nat)) as [H|H].
    + rewrite decide_True; [reflexivity|].
      rewrite elem_of_cons. tauto.
    + destruct (decide (x = s /\ (0 < seasonCount records x)%nat))
        as [[-> Hx]|Hx].
      * rewrite decide_True; [reflexivity|].
        rewrite elem_of_cons. tauto.
      * rewrite decide_False; [reflexivity|].
        rewrite elem_of_cons. intros [[->|Hin] Hpos]; tauto.
Qed.

Lemma countSum_insert (stats : gmap string SeasonStats) (s : string)
  (entry : SeasonStats) :
  stats !! s = None ->
  countSum (<[s := entry]> stats) = (count entry + countSum stats)%nat.
Proof.
  intros Hs. unfold countSum.
  apply (map_fold_insert_L (fun _ entry acc => (count entry + acc)%nat));
    [|exact Hs].
  intros. lia.
Qed.

Lemma seasonalFold_countSum (records : list DataPoint) (l : list string) :
  NoDup l ->
  forall acc : gmap string SeasonStats,
    (forall s, In s l -> acc !! s = None) ->
    countSum (fold_left (seasonalStep (macData records)) l acc)
    = (countSum acc + sum_list (map (seasonCount records) l))%nat.
Proof.
  induction 1 as [|x l Hx Hl IH]; intros acc Hfresh; cbn [fold_left map].
  - cbn. lia.
  - rewrite IH.
    + unfold seasonalStep.
      rewrite macData_season_values, length_map. fold (seasonCount records x).
      destruct (Nat.ltb_spec0 0 (seasonCount records x)) as [Hpos|Hzero].
      * rewrite countSum_insert by (apply Hfresh; cbn; tauto).
        cbn [count sum_list_with id]. lia.
      * cbn [sum_list_with id]. lia.
    + intros s Hs. rewrite seasonalStep_lookup.
      rewrite decide_False.
      * apply Hfresh. cbn. tauto.
      * intros [-> _]. apply Hx. apply list_elem_of_In. exact Hs.
Qed.

Lemma seasonCount_sum (records : list DataPoint) :
  sum_list (map (seasonCount records) seasons)
  = length (List.filter inTable records).
Proof.
  unfold inTable, seasons, seasonCount. cbn [map sum_list_with id existsb].
  induction records as [|r rest IH]; [reflexivity|].
  cbn [List.filter].
  destruct (String.eqb_spec (season r) "Dry Season") as [E1|E1];
    destruct (String.eqb_spec (season r) "Belg Rainy Season") as [E2|E2];
    destruct (String.eqb_spec (season r) "Kiremt Rainy Season") as [E3|E3];
    try congruence; cbn [orb length] in *; lia.
Qed.

Lemma seasonCount_recordsOfSeason (records : list DataPoint) (s : string) :
  seasonCount records s = length (recordsOfSeason s records).
Proof.
  unfold seasonCount. rewrite filter_season_recordsOfSeason. reflexivity.
Qed.

Lemma seasons_NoDup : NoDup seasons.
Proof.
  unfold seasons. repeat constructor; rewrite ?elem_of_cons, ?elem_of_nil;
    intros H; repeat destruct H as [H|H]; try discriminate H; exact H.
Qed.

(** ** The first render and the effect *)

(** X3: on a host within a day of UTC, whatever the draws, the effect run
    after the first render ends the loading state, stores 103 records and
    sets no error: the catch branch is not taken. *)
Lemma effect_loaded (LocalTZA : Z -> bool -> Z) (random : nat -> Q) :
  boundedZone LocalTZA ->
  let st := effect LocalTZA random initialState in
  loading st = false /\ error st = None /\ length (data st) = 103%nat.
Proof.
  intros Hz. unfold effect.
  destruct (generateSampleDataOf_total LocalTZA random sampleSize Hz
              ltac:(unfold sampleSize; lia)) as [recs Hgen].
  unfold generateSampleData. rewrite Hgen. cbn.
  repeat split.
  apply (generateSampleDataOf_lookup _ _ _ _ Hgen).
Qed.

Example generated_span :
  match generateSampleData utcZone midDraws with
  | Ok recs => (length recs, date <$> head recs, date <$> last recs)
  | Throw _ => (0%nat, None, None)
  end = (103%nat, Some "2022-01-01"%string, Some "2022-11-03"%string).
Proof. vm_compute. reflexivity. Qed.

(** * Further properties of the component *)

(** ** Ranges of the generated values *)






(** ** How the generator ends *)

Lemma iteration_invalid (LocalTZA : Z -> bool -> Z) (random : nat -> Q)
  (i : Z) (pos : nat) :
  Date.TimeClip (timeOf LocalTZA i) = None ->
  iteration LocalTZA random i pos = Throw "Invalid time value".
Proof.
  unfold iteration, timeOf. rewrite DateFacts.setDate_getDate.
  intros ->. reflexivity.
Qed.

Lemma iteration_result (LocalTZA : Z -> bool -> Z) (random : nat -> Q)
  (i : Z) (pos : nat) :
  (exists r, iteration LocalTZA random i pos = Ok (r, (pos + 4)%nat))
  \/ iteration LocalTZA random i pos = Throw "Invalid time value".
Proof.
  destruct (Date.TimeClip (timeOf LocalTZA i)) as [t|] eqn:Ht.
  - left. exact (iteration_valid LocalTZA random i pos t Ht).
  - right. exact (iteration_invalid LocalTZA random i pos Ht).
Qed.

Lemma forLoop_result (LocalTZA : Z -> bool -> Z) (random : nat -> Q)
  (n : nat) :
  forall (i : Z) (pos : nat) (acc : list DataPoint),
    (exists recs, forLoop LocalTZA random n i pos acc = Ok recs)
    \/ forLoop LocalTZA random n i pos acc = Throw "Invalid time value".
Proof.
  induction n as [|n IH]; intros i pos acc; cbn [forLoop].
  - left. eauto.
  - destruct (iteration_result LocalTZA random i pos) as [[r ->] | ->].
    + apply IH.
    + right. reflexivity.
Qed.

Lemma forLoop_throws (LocalTZA : Z -> bool -> Z) (random : nat -> Q)
  (n : nat) :
  forall (i : Z) (pos : nat) (acc : list DataPoint) (j : Z),
    i <= j < i + Z.of_nat n ->
    Date.TimeClip (timeOf LocalTZA j) = None ->
    forLoop LocalTZA random n i pos acc = Throw "Invalid time value".
Proof.
  induction n as [|n IH]; intros i pos acc j Hj Hclip; [lia|].
  cbn [forLoop].
  destruct (Date.TimeClip (timeOf LocalTZA i)) as [t|] eqn:Ht.
  - destruct (iteration_valid LocalTZA random i pos t Ht) as [r ->].
    apply (IH _ _ _ j); [|exact Hclip].
    assert (j <> i) by (intros ->; congruence). lia.
  - rewrite (iteration_invalid LocalTZA random i pos Ht). reflexivity.
Qed.

(** X2: the generator ends in one of two ways: it returns exactly as many
    records as its loop bound asks for, or it throws the RangeError of
    [toISOString], "Invalid time value".  On a host within a day of UTC a
    bound of forty million or more runs past the last valid date and
    throws. *)
Theorem generateSampleDataOf_result
  (LocalTZA : Z -> bool -> Z) (random : nat -> Q) (size : Z) :
  ((exists recs,
       generateSampleDataOf LocalTZA random size = Ok recs
       /\ length recs = Z.to_nat size)
   \/ generateSampleDataOf LocalTZA random size = Throw "Invalid time value")
  /\ (boundedZone LocalTZA -> 40000000 <= size ->
      generateSampleDataOf LocalTZA random size = Throw "Invalid time value").
Proof.
  split.
  - destruct (forLoop_result LocalTZA random (Z.to_nat size) 0 0%nat [])
      as [[recs Hgen] | Hthrow]; [left | right; exact Hthrow].
    exists recs. split; [exact Hgen|].
    apply (generateSampleDataOf_lookup _ _ _ _ Hgen).
  - intros Hz Hsize. unfold generateSampleDataOf.
    apply (forLoop_throws LocalTZA random _ _ _ _ 39999999); [lia|].
    unfold Date.TimeClip.
    destruct (Z.leb_spec0 (Z.abs (timeOf LocalTZA 39999999))
                8640000000000000) as [Hle|]; [|reflexivity].
    exfalso. revert Hle. unfold timeOf, Date.UTC, Date.LocalTime, startDate.
    pose proof (Hz 1640995200000 true).
    pose proof (Hz (1640995200000 + LocalTZA 1640995200000 true
                    + 39999999 * 3 * Date.msPerDay) false).
    unfold Date.msPerDay in *. lia.
Qed.

Lemma generateSampleDataOf_result_witness :
  generateSampleDataOf utcZone midDraws 40000000
  = Throw "Invalid time value".
Proof.
  destruct (generateSampleDataOf_result utcZone midDraws 40000000)
    as [_ Hthrow].
  apply Hthrow; [exact utcZone_bounded | lia].
Defined.

Lemma effect_loaded_witness :
  let st := effect utcZone midDraws initialState in
  loading st = false /\ error st = None /\ length (data st) = 103%nat.
Proof. exact (effect_loaded utcZone midDraws utcZone_bounded). Defined.

(** ** Every option of the season selector shows records *)

Lemma YearFromTime_2022 (t : Z) :
  18994 <= Date.Day t <= 19356 -> Date.YearFromTime t = 2022.
Proof.
  intros Hd.
  pose proof (DateFacts.YearFromTime_spec t) as Hspec.
  pose proof (DateFacts.DayFromYear_bounds (Date.YearFromTime t)) as Hlo.
  pose proof (DateFacts.DayFromYear_bounds (Date.YearFromTime t + 1)) as Hhi.
  unfold Date.TimeFromYear, Date.Day, Date.msPerDay in *.
  Z.to_euclidean_division_equations. lia.
Qed.

Lemma MonthFromTime_2022 (t : Z) :
  18994 <= Date.Day t <= 19356 ->
  let d := Date.Day t - 18993 in
  (d < 31 -> Date.MonthFromTime t = 0)
  /\ (59 <= d < 90 -> Date.MonthFromTime t = 2)
  /\ (151 <= d < 212 ->
      Date.MonthFromTime t = 5 \/ Date.MonthFromTime t = 6).
Proof.
  intros Hd d.
  pose proof (YearFromTime_2022 t Hd) as Hy.
  unfold Date.MonthFromTime, Date.DayWithinYear, Date.InLeapYear.
  rewrite Hy. change (Date.DayFromYear 2022) with 18993.
  change (Date.DaysInYear 2022 =? 366) with false. cbv iota. fold d.
  repeat split; intros Hr;
    repeat match goal with
           | |- context [?a <? ?b] => destruct (Z.ltb_spec0 a b)
           end; lia.
Qed.

(** The local time read back from the date of index [k] is within three
    days of the start date plus [3 k] days. *)
Lemma local_day_of_index (LocalTZA : Z -> bool -> Z) (k : Z) :
  boundedZone LocalTZA ->
  18993 + 3 * k - 3
  <= Date.Day (Date.LocalTime LocalTZA (timeOf LocalTZA k))
  <= 18993 + 3 * k + 2.
Proof.
  intros Hz. unfold timeOf, Date.LocalTime, Date.UTC.
  set (x := startDate + LocalTZA startDate true + k * 3 * Date.msPerDay).
  pose proof (Hz startDate true) as H0.
  pose proof (Hz x false) as H1.
  pose proof (Hz (x - LocalTZA x false) true) as H2.
  unfold x, startDate, Date.Day, Date.msPerDay in *.
  Z.to_euclidean_division_equations. lia.
Qed.

Lemma generated_season_at (LocalTZA : Z -> bool -> Z) (random : nat -> Q)
  (size : Z) (recs : list DataPoint) (k : nat) :
  boundedZone LocalTZA ->
  generateSampleDataOf LocalTZA random size = Ok recs ->
  (k < Z.to_nat size)%nat ->
  exists r,
    recs !! k = Some r
    /\ season r = seasonOf seasonMonths (month r)
    /\ month r
       = Date.MonthFromTime
           (Date.LocalTime LocalTZA (timeOf LocalTZA (Z.of_nat k))) + 1.
Proof.
  intros Hz Hgen Hk.
  destruct (generateSampleDataOf_lookup _ _ _ _ Hgen) as [Hlen Hrecs].
  destruct (lookup_lt_is_Some_2 recs k) as [r Hr]; [lia|].
  exists r. split; [exact Hr|].
  destruct (Hrecs k r Hr) as [pos' Hit].
  destruct (iteration_Ok _ _ _ _ _ _ Hit) as (_ & Hclip & Hmonth & Hseason & _).
  apply TimeClip_Some in Hclip. rewrite Hclip in Hmonth. tauto.
Qed.

Lemma filteredData_has (records : list DataPoint) (f : string) (k : nat)
  (r : DataPoint) :
  records !! k = Some r -> season r = f -> filteredData records f <> [].
Proof.
  intros Hk Hs Hnil.
  assert (Hin : In r (filteredData records f)).
  { unfold filteredData. apply filter_In. split.
    - apply list_elem_of_In. eapply list_elem_of_lookup_2. exact Hk.
    - rewrite Hs, String.eqb_refl. apply orb_true_r. }
  rewrite Hnil in Hin. exact Hin.
Qed.

(** X12: on a host within a day of UTC, whatever the draws, a run of at
    least 61 records (the component makes 103) holds records of all three
    seasons: the sixth falls in January (dry), the twenty-sixth in March
    (Belg), the sixty-first in June or July (Kiremt).  So every option of
    the season selector, "all" included, leaves a non-empty selection. *)
Theorem every_season_filter_nonempty
  (LocalTZA : Z -> bool -> Z) (random : nat -> Q) (size : Z)
  (recs : list DataPoint) :
  boundedZone LocalTZA -> 61 <= size ->
  generateSampleDataOf LocalTZA random size = Ok recs ->
  forall f, f = "all"%string \/ In f seasons -> filteredData recs f <> [].
Proof.
  intros Hz Hsize Hgen.
  destruct (generated_season_at LocalTZA random size recs 5 Hz Hgen
              ltac:(lia)) as (r1 & Hr1 & Hs1 & Hm1).
  destruct (generated_season_at LocalTZA random size recs 25 Hz Hgen
              ltac:(lia)) as (r2 & Hr2 & Hs2 & Hm2).
  destruct (generated_season_at LocalTZA random size recs 60 Hz Hgen
              ltac:(lia)) as (r3 & Hr3 & Hs3 & Hm3).
  pose proof (local_day_of_index LocalTZA (Z.of_nat 5) Hz) as Hd1.
  pose proof (local_day_of_index LocalTZA (Z.of_nat 25) Hz) as Hd2.
  pose proof (local_day_of_index LocalTZA (Z.of_nat 60) Hz) as Hd3.
  destruct (MonthFromTime_2022
              (Date.LocalTime LocalTZA (timeOf LocalTZA (Z.of_nat 5)))
              ltac:(lia)) as (Hjan & _ & _).
  destruct (MonthFromTime_2022
              (Date.LocalTime LocalTZA (timeOf LocalTZA (Z.of_nat 25)))
              ltac:(lia)) as (_ & Hmar & _).
  destruct (MonthFromTime_2022
              (Date.LocalTime LocalTZA (timeOf LocalTZA (Z.of_nat 60)))
              ltac:(lia)) as (_ & _ & Hjun).
  rewrite Hjan in Hm1 by lia. rewrite Hmar in Hm2 by lia.
  rewrite Hm1 in Hs1. rewrite Hm2 in Hs2.
  assert (Hs3' : season r3 = "Kiremt Rainy Season"%string).
  { rewrite Hs3, Hm3. destruct Hjun as [-> | ->]; [lia | reflexivity..]. }
  intros f [-> | [<- | [<- | [<- | []]]]].
  - intros Hnil. unfold filteredData in Hnil.
    rewrite filter_all in Hnil by reflexivity.
    rewrite Hnil in Hr1. discriminate.
  - exact (filteredData_has recs _ 5 r1 Hr1 Hs1).
  - exact (filteredData_has recs _ 25 r2 Hr2 Hs2).
  - exact (filteredData_has recs _ 60 r3 Hr3 Hs3').
Qed.

Lemma every_season_filter_nonempty_witness :
  exists recs,
    generateSampleDataOf utcZone midDraws 103 = Ok recs
    /\ filteredData recs "Belg Rainy Season" <> [].
Proof.
  destruct (generateSampleDataOf utcZone midDraws 103) as [recs|] eqn:Hgen;
    [|vm_compute in Hgen; discriminate].
  exists recs. split; [reflexivity|].
  assert (Hsize : 61 <= 103) by lia.
  assert (Hf : "Belg Rainy Season"%string = "all"%string
               \/ In "Belg Rainy Season"%string seasons)
    by (right; cbn; tauto).
  exact (every_season_filter_nonempty utcZone midDraws 103 recs
           utcZone_bounded Hsize Hgen _ Hf).
Defined.

(** ** Composing filters *)

Lemma filter_filter {A : Type} (f g : A -> bool) (l : list A) :
  List.filter g (List.filter f l) = List.filter (fun x => f x && g x) l.
Proof.
  induction l as [|x l IH]; cbn; [reflexivity|].
  destruct (f x); cbn; [destruct (g x)|]; rewrite IH; reflexivity.
Qed.

Lemma filter_ext_bool {A : Type} (f g : A -> bool) (l : list A) :
  (forall x, f x = g x) -> List.filter f l = List.filter g l.
Proof.
  intros H. induction l as [|x l IH]; cbn; [reflexivity|].
  rewrite H, IH. reflexivity.
Qed.

Lemma filter_none {A : Type} (f : A -> bool) (l : list A) :
  (forall x, f x = false) -> List.filter f l = [].
Proof.
  intros H. induction l as [|x l IH]; cbn; [reflexivity|].
  rewrite H. exact IH.
Qed.

(** X4: season filters compose as expected: applying the same filter twice
    is the same as once, two filters commute, ["all"] is neutral on either
    side, and two different season filters leave nothing. *)
Theorem filteredData_compose (records : list DataPoint) (f g : string) :
  filteredData (filteredData records f) f = filteredData records f
  /\ filteredData (filteredData records f) g
     = filteredData (filteredData records g) f
  /\ filteredData (filteredData records f) "all" = filteredData records f
  /\ filteredData (filteredData records "all") f = filteredData records f
  /\ (f <> "all"%string -> g <> "all"%string -> f <> g ->
      filteredData (filteredData records f) g = []).
Proof.
  unfold filteredData. rewrite !filter_filter.
  split; [|split; [|split; [|split]]].
  - apply filter_ext_bool. intros x. apply andb_diag.
  - apply filter_ext_bool. intros x. apply andb_comm.
  - apply filter_ext_bool. intros x. cbn. apply andb_true_r.
  - apply filter_ext_bool. intros x. reflexivity.
  - intros Hf Hg Hfg. apply filter_none. intros x.
    apply String.eqb_neq in Hf, Hg. rewrite Hf, Hg. cbn [orb].
    destruct (String.eqb_spec (season x) f) as [<-|]; [|reflexivity].
    apply String.eqb_neq in Hfg. rewrite Hfg. reflexivity.
Qed.

Lemma filteredData_compose_witness :
  let records := [point 1 "Dry Season" (Fin 5);
                  point 2 "Belg Rainy Season" (Fin 6)] in
  filteredData (filteredData records "Dry Season") "Belg Rainy Season" = [].
Proof.
  intros records.
  destruct (filteredData_compose records "Dry Season" "Belg Rainy Season")
    as (_ & _ & _ & _ & H).
  apply H; discriminate.
Defined.

(** ** The counts of the summary panel *)

Lemma filter_length_le {A : Type} (f : A -> bool) (l : list A) :
  (length (List.filter f l) <= length l)%nat.
Proof.
  induction l as [|x l IH]; cbn; [lia|]. destruct (f x); cbn; lia.
Qed.

(** X5: in the summary panel the number of days in the current selection
    never exceeds the total; it is the total under the filter ["all"], and
    under a season filter it is the count shown for that season in the
    seasonal distribution. *)
Theorem dataSummary_selection (st : State) :
  (selectionDays (dataSummary st) <= totalDays (dataSummary st))%nat
  /\ (seasonFilter st = "all"%string ->
      selectionDays (dataSummary st) = totalDays (dataSummary st))
  /\ (In (seasonFilter st) seasons ->
      exists e, In e (distribution (dataSummary st))
                /\ entrySeason e = seasonFilter st
                /\ entryCount e = selectionDays (dataSummary st)).
Proof.
  cbn [selectionDays totalDays distribution dataSummary]. repeat split.
  - apply filter_length_le.
  - intros ->. unfold filteredData. rewrite filter_all; reflexivity.
  - intros Hin.
    exists {| entrySeason := seasonFilter st;
              entryCount := seasonCount (data st) (seasonFilter st);
              entryPercent :=
                Number.toFixed (percentage (data st) (seasonFilter st)) 1 |}.
    split; [|split; [reflexivity|]].
    + apply (in_map (fun s => {| entrySeason := s;
                                 entryCount := seasonCount (data st) s;
                                 entryPercent :=
                                   Number.toFixed (percentage (data st) s) 1 |})
               seasons (seasonFilter st) Hin).
    + cbn [entryCount]. unfold seasonCount, filteredData.
      pose proof (seasons_not_all _ Hin) as Hne.
      apply String.eqb_neq in Hne. f_equal.
      apply filter_ext_bool. intros x. rewrite Hne. reflexivity.
Qed.

Lemma dataSummary_selection_witness :
  let st := {| data := [point 1 "Dry Season" (Fin 5);
                        point 2 "Belg Rainy Season" (Fin 6);
                        point 3 "Dry Season" (Fin 7)];
               loading := false; error := None;
               view := "scatter"; seasonFilter := "Dry Season" |} in
  exists e, In e (distribution (dataSummary st))
            /\ entrySeason e = "Dry Season"%string
            /\ entryCount e = 2%nat.
Proof.
  intros st.
  destruct (dataSummary_selection st) as (_ & _ & H).
  apply H. cbn. tauto.
Defined.

(** ** The distribution of the generated data *)

Lemma generated_inTable (LocalTZA : Z -> bool -> Z) (random : nat -> Q)
  (size : Z) (recs : list DataPoint) :
  generateSampleDataOf LocalTZA random size = Ok recs ->
  List.filter inTable recs = recs.
Proof.
  intros Hgen.
  destruct (generateSampleDataOf_lookup _ _ _ _ Hgen) as [_ Hrecs].
  assert (Hall : Forall (fun r => inTable r = true) recs).
  { apply Forall_lookup_2. intros k r Hk.
    destruct (Hrecs k r Hk) as [pos' Hit].
    destruct (iteration_Ok _ _ _ _ _ _ Hit)
      as (_ & _ & Hmonth & Hseason & _).
    assert (Hm : 1 <= month r <= 12).
    { rewrite Hmonth.
      pose proof (DateFacts.MonthFromTime_range
                    (Date.LocalTime LocalTZA (timestamp r))). lia. }
    destruct (seasonOf_in_seasons _ Hm) as [Hin _].
    rewrite <- Hseason in Hin. unfold inTable.
    apply existsb_exists. exists (season r).
    split; [exact Hin | apply String.eqb_refl]. }
  clear Hrecs Hgen.
  induction Hall as [|r rest Hr _ IH]; cbn [List.filter]; [reflexivity|].
  rewrite Hr, IH. reflexivity.
Qed.

(** The month of a time value depends on its day only. *)
Lemma YearFromTime_Day (t : Z) :
  Date.YearFromTime t = Date.YearFromTime (Date.Day t * Date.msPerDay).
Proof.
  unfold Date.YearFromTime, Date.TimeFromYear.
  assert (Hday : Date.Day (Date.Day t * Date.msPerDay) = Date.Day t).
  { unfold Date.Day, Date.msPerDay. apply Z.div_mul. lia. }
  rewrite Hday.
  set (y := 1970 + Date.Day t * 400 / 146097).
  assert (Hle : forall d, (Date.msPerDay * d <=? t)
                          = (Date.msPerDay * d <=? Date.Day t * Date.msPerDay)).
  { intros d. unfold Date.Day, Date.msPerDay.
    destruct (Z.leb_spec0 (86400000 * d) t);
      destruct (Z.leb_spec0 (86400000 * d) (t / 86400000 * 86400000));
      try reflexivity; exfalso;
      Z.to_euclidean_division_equations; lia. }
  rewrite !Hle. reflexivity.
Qed.

Lemma MonthFromTime_Day (t : Z) :
  Date.MonthFromTime t = Date.MonthFromTime (Date.Day t * Date.msPerDay).
Proof.
  unfold Date.MonthFromTime, Date.DayWithinYear, Date.InLeapYear.
  rewrite <- YearFromTime_Day.
  assert (Hday : Date.Day (Date.Day t * Date.msPerDay) = Date.Day t).
  { unfold Date.Day, Date.msPerDay. apply Z.div_mul. lia. }
  rewrite Hday. reflexivity.
Qed.

Lemma westZone_bounded : boundedZone westZone.
Proof. intros t b. unfold westZone, Date.msPerDay. lia. Defined.

Lemma westZone_steady : steadyClock westZone.
Proof.
  intros k Hk. unfold timeOf, Date.UTC, Date.LocalTime, westZone. lia.
Defined.


Lemma easternZone_steady : steadyClock easternZone.
Proof.
  assert (Hall : forallb
                   (fun k => Date.LocalTime easternZone (timeOf easternZone k)
                             =? Date.LocalTime easternZone startDate
                                + k * 3 * Date.msPerDay)
                   (map Z.of_nat (seq 0 103)) = true)
    by (vm_compute; reflexivity).
  rewrite forallb_forall in Hall.
  intros k Hk. apply Z.eqb_eq, Hall. apply in_map_iff.
  exists (Z.to_nat k). unfold sampleSize in Hk.
  split; [lia | apply in_seq; lia].
Qed.

(** The seasons of a steady run of 103 records. *)
Lemma steady_seasons (LocalTZA : Z -> bool -> Z) (l : list string) :
  boundedZone LocalTZA -> steadyClock LocalTZA ->
  length l = 103%nat ->
  (forall (k : nat) s,
      l !! k = Some s ->
      s = seasonOf seasonMonths
            (Date.MonthFromTime
               (Date.LocalTime LocalTZA (timeOf LocalTZA (Z.of_nat k))) + 1)) ->
  (0 <= LocalTZA startDate true -> l = seasonsFrom 18993)
  /\ (LocalTZA startDate true < 0 -> l = seasonsFrom 18992).
Proof.
  intros Hz Hsteady Hlen Hl.
  assert (Hall : forall day0,
             Date.Day (Date.LocalTime LocalTZA startDate) = day0 ->
             l = seasonsFrom day0).
  { intros day0 Hday0. apply list_eq. intros k.
    unfold seasonsFrom. rewrite list_lookup_fmap.
    destruct (l !! k) as [s|] eqn:Hs.
    - assert (Hk : (k < 103)%nat).
      { rewrite <- Hlen. eapply lookup_lt_Some. exact Hs. }
      rewrite lookup_seq_lt by exact Hk. cbn [fmap option_fmap option_map].
      rewrite (Hl k s Hs), MonthFromTime_Day.
      rewrite Hsteady by (unfold sampleSize; lia).
      replace (Date.Day (Date.LocalTime LocalTZA startDate
                         + Z.of_nat k * 3 * Date.msPerDay))
        with (day0 + 3 * Z.of_nat k); [reflexivity|].
      rewrite <- Hday0. unfold Date.Day.
      replace (Z.of_nat k * 3 * Date.msPerDay)
        with (3 * Z.of_nat k * Date.msPerDay) by lia.
      rewrite Z.div_add by (unfold Date.msPerDay; lia). reflexivity.
    - apply lookup_ge_None in Hs.
      rewrite lookup_seq_ge by lia. reflexivity. }
  pose proof (Hz startDate true) as Hb.
  split; intros Hsign; apply Hall;
    unfold Date.LocalTime, Date.Day, startDate, Date.msPerDay in *;
    Z.to_euclidean_division_equations; lia.
Qed.

Lemma seasonCount_countOfQ (records : list DataPoint) (s : string) :
  seasonCount records s = countOf s (map season records).
Proof.
  unfold seasonCount, countOf.
  induction records as [|r rest IH]; cbn [map List.filter]; [reflexivity|].
  destruct (String.eqb (season r) s); cbn [length]; rewrite IH; reflexivity.
Qed.

(** X6: every record the generator returns has a season of the table, so
    the three season counts of the summary panel add up to the number of
    records, whatever the host, the draws and the length of the run.  For
    the 103 records of the component on a steady host within a day of UTC
    the counts are 32, 31 and 40 where local time is UTC or ahead of it at
    the start date, and 31, 31 and 41 where it is behind. *)
Theorem generated_distribution
  (LocalTZA : Z -> bool -> Z) (random : nat -> Q) (size : Z)
  (recs : list DataPoint) :
  generateSampleDataOf LocalTZA random size = Ok recs ->
  let counts := map (seasonCount recs) seasons in
  sum_list counts = length recs
  /\ (size = 103 -> boundedZone LocalTZA -> steadyClock LocalTZA ->
      (0 <= LocalTZA startDate true -> counts = [32; 31; 40]%nat)
      /\ (LocalTZA startDate true < 0 -> counts = [31; 31; 41]%nat)).
Proof.
  intros Hgen counts. unfold counts. split.
  { rewrite seasonCount_sum, (generated_inTable _ _ _ _ Hgen). reflexivity. }
  intros -> Hz Hsteady.
  destruct (generateSampleDataOf_lookup _ _ _ _ Hgen) as [Hlen Hrecs].
  destruct (steady_seasons LocalTZA (map season recs) Hz Hsteady)
    as [Hahead Hbehind].
  { rewrite length_map. exact Hlen. }
  { intros k s Hs. rewrite list_lookup_fmap in Hs.
    destruct (recs !! k) as [r|] eqn:Hr; [|discriminate].
    injection Hs as <-.
    destruct (Hrecs k r Hr) as [pos' Hit].
    destruct (iteration_Ok _ _ _ _ _ _ Hit) as (_ & Hclip & Hm & Hs & _).
    apply TimeClip_Some in Hclip. rewrite Hs, Hm, Hclip. reflexivity. }
  cbn [map seasons]. rewrite !seasonCount_countOfQ.
  split; intros Hsign.
  - rewrite (Hahead Hsign). vm_compute. reflexivity.
  - rewrite (Hbehind Hsign). vm_compute. reflexivity.
Qed.

Lemma generated_distribution_witness :
  exists recs,
    generateSampleDataOf westZone midDraws 103 = Ok recs
    /\ sum_list (map (seasonCount recs) seasons) = length recs
    /\ map (seasonCount recs) seasons = [31; 31; 41]%nat.
Proof.
  destruct (generateSampleDataOf westZone midDraws 103) as [recs|] eqn:Hgen;
    [|vm_compute in Hgen; discriminate].
  destruct (generated_distribution westZone midDraws 103 recs Hgen)
    as [Hsum Hcounts].
  exists recs. split; [reflexivity|]. split; [exact Hsum|].
  apply Hcounts; [reflexivity | exact westZone_bounded | exact westZone_steady|].
  unfold westZone. lia.
Defined.

(** ** More on the sort *)

Section SortCompose.

Context {A : Type}.
Variable key : A -> Z.
Variable compareFn : A -> A -> Z.
Hypothesis compareFn_key : forall a b, compareFn a b = key a - key b.

Lemma sortInsert_head (x : A) (l : list A) :
  Forall (fun z => key x <= key z) l -> sortInsert compareFn x l = x :: l.
Proof.
  intros [|y l' Hy _]; [reflexivity|]. cbn [sortInsert].
  destruct (Z.ltb_spec0 0 (compareFn x y)) as [Hgt|]; [|reflexivity].
  rewrite compareFn_key in Hgt. lia.
Qed.

Lemma Forall_filter_bool (Q : A -> Prop) (P : A -> bool) (l : list A) :
  Forall Q l -> Forall Q (List.filter P l).
Proof.
  induction 1 as [|y l Hy _ IH]; cbn; [constructor|].
  destruct (P y); [constructor; assumption | exact IH].
Qed.

Lemma sortInsert_filter (P : A -> bool) (x : A) (l : list A) :
  StronglySorted (fun a b => key a <= key b) l ->
  List.filter P (sortInsert compareFn x l)
  = if P x then sortInsert compareFn x (List.filter P l)
    else List.filter P l.
Proof.
  induction 1 as [|y l Hl IH Hy]; cbn [sortInsert List.filter].
  - destruct (P x); reflexivity.
  - destruct (Z.ltb_spec0 0 (compareFn x y)) as [Hgt|Hle].
    + cbn [List.filter]. rewrite IH.
      destruct (P x), (P y); try reflexivity.
      cbn [sortInsert].
      destruct (Z.ltb_spec0 0 (compareFn x y)); [reflexivity | contradiction].
    + cbn [List.filter]. rewrite compareFn_key in Hle.
      destruct (P x); [|reflexivity].
      symmetry. apply sortInsert_head.
      destruct (P y).
      * constructor; [lia|]. apply Forall_filter_bool.
        eapply Forall_impl; [exact Hy|]. cbn. intros z Hz. lia.
      * apply Forall_filter_bool.
        eapply Forall_impl; [exact Hy|]. cbn. intros z Hz. lia.
Qed.

Lemma Array_sort_filter (P : A -> bool) (l : list A) :
  List.filter P (Array_sort compareFn l)
  = Array_sort compareFn (List.filter P l).
Proof.
  induction l as [|x l IH]; [reflexivity|].
  cbn [Array_sort List.filter].
  rewrite sortInsert_filter
    by (apply (Array_sort_sorted key); exact compareFn_key).
  rewrite IH. destruct (P x); reflexivity.
Qed.

(** Two ordered sequences with the same elements of each key, in the same
    order, are the same sequence. *)
Lemma sorted_stable_unique (l1 : list A) :
  forall l2 : list A,
    StronglySorted (fun a b => key a <= key b) l1 ->
    StronglySorted (fun a b => key a <= key b) l2 ->
    (forall t, List.filter (fun a => key a =? t) l1
               = List.filter (fun a => key a =? t) l2) ->
    l1 = l2.
Proof.
  induction l1 as [|x l1 IH]; intros l2 Hs1 Hs2 Hsame.
  - destruct l2 as [|y l2]; [reflexivity|].
    specialize (Hsame (key y)). cbn in Hsame.
    rewrite Z.eqb_refl in Hsame. discriminate.
  - destruct l2 as [|y l2].
    { specialize (Hsame (key x)). cbn in Hsame.
      rewrite Z.eqb_refl in Hsame. discriminate. }
    apply StronglySorted_inv in Hs1 as [Hs1 Hx].
    apply StronglySorted_inv in Hs2 as [Hs2 Hy].
    assert (Hxy : x = y).
    { pose proof (Hsame (key x)) as Hkx. cbn [List.filter] in Hkx.
      rewrite Z.eqb_refl in Hkx.
      destruct (Z.eqb_spec (key y) (key x)) as [E|E]; [congruence|].
      exfalso.
      pose proof (Hsame (key y)) as Hky. cbn [List.filter] in Hky.
      rewrite Z.eqb_refl in Hky.
      destruct (Z.eqb_spec (key x) (key y)) as [E'|_]; [congruence|].
      assert (Hin1 : In y l1).
      { eapply (proj1 (filter_In _ y l1)). rewrite Hky. left. reflexivity. }
      assert (Hin2 : In x l2).
      { eapply (proj1 (filter_In _ x l2)). rewrite <- Hkx. left.
        reflexivity. }
      rewrite List.Forall_forall in Hx, Hy.
      specialize (Hx y Hin1). specialize (Hy x Hin2). cbn in Hx, Hy. lia. }
    subst y. f_equal. apply IH; [assumption..|].
    intros t. specialize (Hsame t). cbn [List.filter] in Hsame.
    destruct (key x =? t); [congruence | exact Hsame].
Qed.

End SortCompose.

(** X7: sorting and filtering commute: sorting the season-filtered data by
    time stamp gives the same sequence as filtering the sorted data. *)
Theorem sortedData_filteredData (records : list DataPoint) (f : string) :
  sortedData (filteredData records f) = filteredData (sortedData records) f.
Proof.
  unfold sortedData, filteredData. symmetry.
  apply (Array_sort_filter timestamp). reflexivity.
Qed.

(** X8: the result of the sort is the only sequence with non-decreasing
    time stamps that keeps, for each time stamp, the records carrying it
    in their input order; in particular sorting twice changes nothing
    more. *)
Theorem sortedData_unique (records other : list DataPoint) :
  (StronglySorted (fun a b => timestamp a <= timestamp b) other ->
   (forall t,
       List.filter (fun r => timestamp r =? t) other
       = List.filter (fun r => timestamp r =? t) records) ->
   other = sortedData records)
  /\ sortedData (sortedData records) = sortedData records.
Proof.
  split.
  - intros Hsorted Hsame. unfold sortedData.
    apply (sorted_stable_unique timestamp); [exact Hsorted | |].
    + apply (Array_sort_sorted timestamp). reflexivity.
    + intros t. rewrite Hsame. symmetry.
      apply (Array_sort_stable timestamp). reflexivity.
  - unfold sortedData. apply (Array_sort_sorted_id timestamp); [reflexivity|].
    apply (Array_sort_sorted timestamp). reflexivity.
Qed.

Lemma sortedData_unique_witness :
  let records := [point 3 "a" (Fin 1); point 1 "b" (Fin 2);
                  point 3 "c" (Fin 3)] in
  [point 1 "b" (Fin 2); point 3 "a" (Fin 1); point 3 "c" (Fin 3)]
  = sortedData records.
Proof.
  intros records.
  destruct (sortedData_unique records
              [point 1 "b" (Fin 2); point 3 "a" (Fin 1); point 3 "c" (Fin 3)])
    as [H _].
  apply H.
  - repeat constructor; cbn; lia.
  - intros t. cbn [List.filter records point timestamp].
    destruct (Z.eqb_spec 3 t), (Z.eqb_spec 1 t); (reflexivity || lia).
Defined.

(** ** The overall mean *)

Lemma macData_values (records : list DataPoint) :
  map MacItem.mac (macData records) = map mac records.
Proof. unfold macData. rewrite map_map. reflexivity. Qed.







(** ** The statistics under a season filter *)

Lemma recordsOfSeason_idem (records : list DataPoint) (s : string) :
  recordsOfSeason s (recordsOfSeason s records) = recordsOfSeason s records.
Proof.
  induction records as [|r rest IH]; cbn; [reflexivity|].
  destruct (decide (season r = s)) as [E|E]; [|exact IH].
  cbn. rewrite decide_True by exact E. rewrite IH. reflexivity.
Qed.

Lemma recordsOfSeason_other (records : list DataPoint) (s k : string) :
  k <> s -> recordsOfSeason k (recordsOfSeason s records) = [].
Proof.
  intros Hne. induction records as [|r rest IH]; cbn; [reflexivity|].
  destruct (decide (season r = s)) as [E|E]; [|exact IH].
  cbn. rewrite decide_False by congruence. exact IH.
Qed.

(** X10: under a season filter the seasonal list of the MAC analysis
    repeats the overall figures: if the selection is not empty the map has
    the single entry of that season, holding the text of the overall mean
    and the overall count. *)
Theorem seasonalMACs_under_filter (data : list DataPoint) (s : string) :
  In s seasons ->
  filteredData data s <> [] ->
  let analysis := renderMACAnalysis (filteredData data s) in
  seasonalMACs analysis
  = {[ s := {| avg := overallText analysis;
               count := overallCount analysis |} ]}.
Proof.
  intros Hs Hne analysis. unfold analysis.
  pose proof (seasons_not_all s Hs) as Hall.
  rewrite filteredData_season in * by exact Hall.
  apply map_eq. intros k.
  cbn [seasonalMACs renderMACAnalysis overallText overallCount].
  rewrite seasonalFold_lookup, lookup_empty.
  rewrite macData_values, length_map, NumberFacts.reduceSum_total.
  rewrite seasonCount_recordsOfSeason.
  destruct (decide (k = s)) as [->|Hk].
  - rewrite lookup_singleton_eq, recordsOfSeason_idem.
    rewrite decide_True.
    + unfold seasonEntry, arithmeticMean.
      rewrite seasonCount_recordsOfSeason, recordsOfSeason_idem.
      rewrite length_map. reflexivity.
    + split; [apply list_elem_of_In; exact Hs|].
      destruct (recordsOfSeason s data); [contradiction | cbn; lia].
  - rewrite lookup_singleton_ne by congruence.
    rewrite recordsOfSeason_other by exact Hk.
    rewrite decide_False; [reflexivity|]. cbn. lia.
Qed.

Lemma seasonalMACs_under_filter_witness :
  let data := [point 1 "Dry Season" (Fin 5);
               point 2 "Kiremt Rainy Season" (Fin 6);
               point 3 "Dry Season" (Fin 8)] in
  seasonalMACs (renderMACAnalysis (filteredData data "Dry Season"))
  = {[ "Dry Season"%string := {| avg := "6.50"; count := 2 |} ]}.
Proof.
  intros data.
  apply (seasonalMACs_under_filter data "Dry Season").
  - cbn. tauto.
  - discriminate.
Defined.

(** ** Dates as text, and back *)

Lemma digitsOk_year :
  forallb (digitsOk 4) (map Z.of_nat (seq 0 (100 * 100))) = true.
Proof. vm_compute. reflexivity. Qed.

Lemma digitsOk_two : forallb (digitsOk 2) (map Z.of_nat (seq 0 100)) = true.
Proof. vm_compute. reflexivity. Qed.

Lemma digitsOk_range (width : nat) (bound : nat) (n : Z) :
  forallb (digitsOk width) (map Z.of_nat (seq 0 bound)) = true ->
  0 <= n < Z.of_nat bound ->
  String.length (Date.pad width n) = width
  /\ allDigits (Date.pad width n) = true
  /\ parseDigits (Date.pad width n) 0 = Some n.
Proof.
  intros Hall Hn.
  assert (Hin : In n (map Z.of_nat (seq 0 bound))).
  { apply in_map_iff. exists (Z.to_nat n). split; [lia|].
    apply in_seq. lia. }
  pose proof (proj1 (forallb_forall _ _) Hall n Hin) as Hok.
  unfold digitsOk in Hok.
  apply andb_prop in Hok as [Hok Hparse].
  apply andb_prop in Hok as [Hlen Hdigits].
  apply Nat.eqb_eq in Hlen.
  destruct (parseDigits (Date.pad width n) 0) as [v|]; [|discriminate].
  apply Z.eqb_eq in Hparse. subst v. tauto.
Qed.

Lemma allDigits_noChar (sep : ascii) (s : string) :
  isDigit sep = false -> allDigits s = true -> noChar sep s = true.
Proof.
  intros Hsep. induction s as [|c rest IH]; cbn; [reflexivity|].
  intros H. apply andb_prop in H as [Hc Hrest].
  rewrite IH by exact Hrest. rewrite andb_true_r.
  destruct (Ascii.eqb_spec c sep) as [->|]; [congruence | reflexivity].
Qed.

Lemma append_String (c : ascii) (a b : string) :
  (String c a ++ b)%string = String c (a ++ b)%string.
Proof. reflexivity. Qed.

Lemma noChar_app (sep : ascii) (a b : string) :
  noChar sep (a ++ b) = noChar sep a && noChar sep b.
Proof.
  induction a as [|c a IH]; [reflexivity|].
  rewrite append_String. cbn [noChar]. rewrite IH, andb_assoc. reflexivity.
Qed.

Lemma splitFirst_app (sep : ascii) (a b : string) :
  noChar sep a = true -> splitFirst sep (a ++ String sep b) = a.
Proof.
  induction a as [|c a IH];
    [change (EmptyString ++ String sep b)%string with (String sep b)
    | rewrite append_String]; cbn [noChar splitFirst].
  - rewrite Ascii.eqb_refl. reflexivity.
  - intros H. apply andb_prop in H as [Hc Ha].
    destruct (Ascii.eqb c sep); [discriminate|]. rewrite IH by exact Ha.
    reflexivity.
Qed.

Lemma splitOnce_app (sep : ascii) (a b : string) :
  noChar sep a = true -> splitOnce sep (a ++ String sep b) = Some (a, b).
Proof.
  induction a as [|c a IH];
    [change (EmptyString ++ String sep b)%string with (String sep b)
    | rewrite append_String]; cbn [noChar splitOnce].
  - rewrite Ascii.eqb_refl. reflexivity.
  - intros H. apply andb_prop in H as [Hc Ha].
    destruct (Ascii.eqb c sep); [discriminate|]. rewrite IH by exact Ha.
    reflexivity.
Qed.

Lemma DateFromTime_range (t : Z) : 1 <= Date.DateFromTime t <= 31.
Proof.
  pose proof (DateFacts.DayWithinYear_range t) as Hd.
  unfold Date.DateFromTime, Date.MonthFromTime, Date.InLeapYear in *.
  assert (Hdays : Date.DaysInYear (Date.YearFromTime t) = 365
                  \/ Date.DaysInYear (Date.YearFromTime t) = 366).
  { unfold Date.DaysInYear.
    repeat match goal with
           | |- context [if ?b then _ else _] => destruct b
           end; tauto. }
  destruct (Z.eqb_spec (Date.DaysInYear (Date.YearFromTime t)) 366);
    repeat match goal with
           | |- context [?a <? ?b] =>
               destruct (Z.ltb_spec0 a b); cbn [Date.monthStart Z.eqb]
           end; cbn; lia.
Qed.

Lemma pad4_ok (n : Z) :
  0 <= n <= 9999 ->
  String.length (Date.pad 4 n) = 4%nat
  /\ allDigits (Date.pad 4 n) = true
  /\ parseDigits (Date.pad 4 n) 0 = Some n.
Proof.
  intros Hn. apply (digitsOk_range 4 (100 * 100) n digitsOk_year).
  change (Z.of_nat (100 * 100)) with 10000. lia.
Qed.

Lemma pad2_ok (n : Z) :
  0 <= n <= 99 ->
  String.length (Date.pad 2 n) = 2%nat
  /\ allDigits (Date.pad 2 n) = true
  /\ parseDigits (Date.pad 2 n) 0 = Some n.
Proof.
  intros Hn. apply (digitsOk_range 2 100 n digitsOk_two).
  change (Z.of_nat 100) with 100. lia.
Qed.

Lemma append_assoc (a b c : string) :
  ((a ++ b) ++ c)%string = (a ++ b ++ c)%string.
Proof.
  induction a as [|x a IH]; [reflexivity|].
  rewrite !append_String, IH. reflexivity.
Qed.

(** The date part of the ISO text of a time value in the years 0..9999. *)
Lemma isoDate_text (t : Z) :
  0 <= Date.YearFromTime t <= 9999 ->
  splitFirst "T" (Date.toISOString t)
  = (Date.pad 4 (Date.YearFromTime t) ++ "-"
     ++ Date.pad 2 (Date.MonthFromTime t + 1) ++ "-"
     ++ Date.pad 2 (Date.DateFromTime t))%string.
Proof.
  intros Hy.
  pose proof (DateFacts.MonthFromTime_range t) as Hm.
  pose proof (DateFromTime_range t) as Hd.
  destruct (pad4_ok (Date.YearFromTime t) Hy) as (_ & Hy4 & _).
  destruct (pad2_ok (Date.MonthFromTime t + 1) ltac:(lia)) as (_ & Hm2 & _).
  destruct (pad2_ok (Date.DateFromTime t) ltac:(lia)) as (_ & Hd2 & _).
  unfold Date.toISOString, Date.isoYear.
  destruct (Z.leb_spec0 0 (Date.YearFromTime t)); [|lia].
  destruct (Z.leb_spec0 (Date.YearFromTime t) 9999); [|lia].
  cbn [andb].
  set (y := Date.pad 4 (Date.YearFromTime t)) in *.
  set (m := Date.pad 2 (Date.MonthFromTime t + 1)) in *.
  set (d := Date.pad 2 (Date.DateFromTime t)) in *.
  set (rest := (Date.pad 2 (Date.HourFromTime t) ++ _)%string).
  replace (y ++ "-" ++ m ++ "-" ++ d ++ "T" ++ rest)%string
    with ((y ++ "-" ++ m ++ "-" ++ d) ++ String "T" rest)%string
    by (rewrite !append_assoc; reflexivity).
  apply splitFirst_app.
  rewrite !noChar_app.
  rewrite (allDigits_noChar "T" y), (allDigits_noChar "T" m),
    (allDigits_noChar "T" d) by (assumption || reflexivity).
  reflexivity.
Qed.

(** The parser reads the date part back as UTC midnight of the day. *)
Lemma parseISODate_parsesISODates : parsesISODates parseISODate.
Proof.
  intros t Hy. rewrite isoDate_text by exact Hy.
  pose proof (DateFacts.MonthFromTime_range t) as Hm.
  pose proof (DateFromTime_range t) as Hd.
  destruct (pad4_ok (Date.YearFromTime t) Hy) as (Hy1 & Hy2 & Hy3).
  destruct (pad2_ok (Date.MonthFromTime t + 1) ltac:(lia))
    as (Hm1 & Hm2 & Hm3).
  destruct (pad2_ok (Date.DateFromTime t) ltac:(lia)) as (Hd1 & Hd2 & Hd3).
  unfold parseISODate.
  set (y := Date.pad 4 (Date.YearFromTime t)) in *.
  set (m := Date.pad 2 (Date.MonthFromTime t + 1)) in *.
  set (d := Date.pad 2 (Date.DateFromTime t)) in *.
  change (y ++ "-" ++ m ++ "-" ++ d)%string
    with (y ++ String "-" (m ++ String "-" d))%string.
  rewrite splitOnce_app by (apply allDigits_noChar; [reflexivity | exact Hy2]).
  rewrite splitOnce_app by (apply allDigits_noChar; [reflexivity | exact Hm2]).
  rewrite Hy1, Hm1, Hd1, Hy3, Hm3, Hd3. cbn [Nat.eqb andb].
  destruct (Z.leb_spec0 1 (Date.MonthFromTime t + 1)); [|lia].
  destruct (Z.leb_spec0 (Date.MonthFromTime t + 1) 12); [|lia].
  destruct (Z.leb_spec0 1 (Date.DateFromTime t)); [|lia].
  destruct (Z.leb_spec0 (Date.DateFromTime t) 31); [|lia].
  cbn [andb]. f_equal.
  replace (Date.MonthFromTime t + 1 - 1) with (Date.MonthFromTime t) by lia.
  pose proof (DateFacts.MakeDay_DateFromTime t 0) as Hday.
  rewrite Z.add_0_r in Hday. rewrite Hday.
  unfold Date.MakeDate. lia.
Qed.

Lemma iteration_date (LocalTZA : Z -> bool -> Z) (random : nat -> Q)
  (i : Z) (pos : nat) (r : DataPoint) (pos' : nat) :
  iteration LocalTZA random i pos = Ok (r, pos') ->
  date r = splitFirst "T" (Date.toISOString (timestamp r)).
Proof.
  unfold iteration.
  destruct (Date.setDate _ _ _) as [t|]; [|discriminate].
  cbn [Math_random]. intros [= <- <-]. reflexivity.
Qed.

Lemma timeOf_year (LocalTZA : Z -> bool -> Z) (k : Z) :
  boundedZone LocalTZA -> 0 <= k <= 100000 ->
  0 <= Date.YearFromTime (timeOf LocalTZA k) <= 9999.
Proof.
  intros Hz Hk.
  set (t := timeOf LocalTZA k).
  assert (Ht : 18991 * Date.msPerDay < t < 318996 * Date.msPerDay).
  { unfold t, timeOf, Date.UTC, Date.LocalTime, startDate.
    pose proof (Hz 1640995200000 true).
    pose proof (Hz (1640995200000 + LocalTZA 1640995200000 true
                    + k * 3 * Date.msPerDay) false).
    unfold Date.msPerDay in *. lia. }
  pose proof (DateFacts.YearFromTime_spec t) as Hspec.
  pose proof (DateFacts.DayFromYear_bounds (Date.YearFromTime t)) as Hlo.
  pose proof (DateFacts.DayFromYear_bounds (Date.YearFromTime t + 1)) as Hhi.
  unfold Date.TimeFromYear, Date.msPerDay in *. lia.
Qed.

(** X11: the date text of a generated record reads back as a date: on a
    host that parses date-only ISO text as ECMAScript prescribes,
    [new Date(r.date).getTime()] is UTC midnight of the day of the record's
    time stamp, and on a host with a fixed offset from UTC it is the time
    stamp itself. *)
Theorem generated_date_round_trip
  (parseDate : string -> option Z)
  (LocalTZA : Z -> bool -> Z) (random : nat -> Q) (size : Z)
  (recs : list DataPoint) (k : nat) (r : DataPoint) :
  parsesISODates parseDate ->
  boundedZone LocalTZA -> size <= 100000 ->
  generateSampleDataOf LocalTZA random size = Ok recs ->
  recs !! k = Some r ->
  parseDate (date r) = Some (Date.Day (timestamp r) * Date.msPerDay)
  /\ (forall c, (forall t isUTC, LocalTZA t isUTC = c) ->
                parseDate (date r) = Some (timestamp r)).
Proof.
  intros Hparse Hz Hsize Hgen Hk.
  destruct (generateSampleDataOf_lookup _ _ _ _ Hgen) as [Hlen Hrecs].
  destruct (Hrecs k r Hk) as [pos' Hit].
  pose proof (iteration_date _ _ _ _ _ _ Hit) as Hdate.
  pose proof (generated_timestamp _ _ _ _ _ _ Hgen Hk) as Hts.
  assert (Hklt : (k < length recs)%nat)
    by (apply lookup_lt_is_Some; eauto).
  assert (Hyear : 0 <= Date.YearFromTime (timestamp r) <= 9999).
  { rewrite Hts. apply timeOf_year; [exact Hz | lia]. }
  assert (Hmid : parseDate (date r)
                 = Some (Date.Day (timestamp r) * Date.msPerDay)).
  { rewrite Hdate. apply Hparse. exact Hyear. }
  split; [exact Hmid|].
  intros c Hc. rewrite Hmid, Hts. f_equal.
  rewrite (timeOf_fixed_offset LocalTZA c) by exact Hc.
  unfold startDate, Date.Day, Date.msPerDay.
  Z.to_euclidean_division_equations. lia.
Qed.

Lemma generated_date_round_trip_witness :
  exists recs r,
    generateSampleDataOf utcZone midDraws 103 = Ok recs
    /\ recs !! 102%nat = Some r
    /\ parseISODate (date r) = Some (timestamp r).
Proof.
  destruct (generateSampleDataOf utcZone midDraws 103) as [recs|] eqn:Hgen;
    [|vm_compute in Hgen; discriminate].
  destruct (recs !! 102%nat) as [r|] eqn:Hr;
    [|vm_compute in Hgen; injection Hgen as <-; discriminate Hr].
  assert (Hsize : 103 <= 100000) by lia.
  destruct (generated_date_round_trip parseISODate utcZone midDraws 103
              recs 102 r parseISODate_parsesISODates utcZone_bounded
              Hsize Hgen Hr) as [_ Hfixed].
  exists recs, r. split; [reflexivity|]. split; [exact Hr|].
  apply (Hfixed 0). reflexivity.
Defined.

(** ** The MAC chart on generated data *)

Lemma Array_sort_ordered {A : Type} (compareFn : A -> A -> Z) (l : list A) :
  StronglySorted (fun a b => compareFn a b <= 0) l ->
  Array_sort compareFn l = l.
Proof.
  induction 1 as [|x l Hl IH Hx]; [reflexivity|].
  cbn [Array_sort]. rewrite IH.
  destruct Hx as [|y l Hxy _]; [reflexivity|].
  cbn [sortInsert].
  destruct (Z.ltb_spec0 0 (compareFn x y)); [lia | reflexivity].
Qed.

Lemma StronglySorted_map {A B : Type} (R : B -> B -> Prop) (g : A -> B)
  (l : list A) :
  StronglySorted (fun a b => R (g a) (g b)) l ->
  StronglySorted R (map g l).
Proof.
  induction 1 as [|x l Hl IH Hx]; cbn; constructor; [exact IH|].
  apply Forall_map. exact Hx.
Qed.

Lemma head_map {A B : Type} (g : A -> B) (l : list A) :
  head (map g l) = g <$> head l.
Proof. destruct l; reflexivity. Qed.

Lemma last_map {A B : Type} (g : A -> B) (l : list A) :
  last (map g l) = g <$> last l.
Proof.
  induction l as [|x [|y l] IH]; [reflexivity..|].
  exact IH.
Qed.

(** X13: on such a host the sort by parsed date of the MAC analysis leaves
    any season-filtered selection of the generated records as it is, so
    the chart draws them in generation order and the dashed line of the
    average runs from the date of the first selected record to that of
    the last. *)
Theorem macSortedData_generated
  (parseDate : string -> option Z)
  (LocalTZA : Z -> bool -> Z) (random : nat -> Q) (size : Z)
  (recs : list DataPoint) (f : string) (average : number) :
  parsesISODates parseDate ->
  boundedZone LocalTZA -> size <= 100000 ->
  generateSampleDataOf LocalTZA random size = Ok recs ->
  macSortedData parseDate (macData (filteredData recs f))
  = macData (filteredData recs f)
  /\ averageLine parseDate (macData (filteredData recs f)) average
     = [(date <$> head (filteredData recs f), average);
        (date <$> last (filteredData recs f), average)].
Proof.
  intros Hparse Hz Hsize Hgen.
  assert (Hsorted : macSortedData parseDate (macData (filteredData recs f))
                    = macData (filteredData recs f)).
  { unfold macSortedData. apply Array_sort_ordered.
    unfold macData. apply StronglySorted_map.
    unfold filteredData. apply StronglySorted_filter.
    apply StronglySorted_of_lookup. intros i j a b Hij Ha Hb.
    unfold byDate. cbn [MacItem.date].
    destruct (generateSampleDataOf_lookup _ _ _ _ Hgen) as [Hlen Hrecs].
    assert (Hpa : parseDate (date a)
                  = Some (Date.Day (timestamp a) * Date.msPerDay)).
    { destruct (Hrecs i a Ha) as [pos' Hit].
      rewrite (iteration_date _ _ _ _ _ _ Hit). apply Hparse.
      rewrite (generated_timestamp _ _ _ _ _ _ Hgen Ha).
      apply timeOf_year; [exact Hz|].
      assert (i < length recs)%nat by (apply lookup_lt_is_Some; eauto).
      lia. }
    assert (Hpb : parseDate (date b)
                  = Some (Date.Day (timestamp b) * Date.msPerDay)).
    { destruct (Hrecs j b Hb) as [pos' Hit].
      rewrite (iteration_date _ _ _ _ _ _ Hit). apply Hparse.
      rewrite (generated_timestamp _ _ _ _ _ _ Hgen Hb).
      apply timeOf_year; [exact Hz|].
      assert (j < length recs)%nat by (apply lookup_lt_is_Some; eauto).
      lia. }
    rewrite Hpa, Hpb.
    assert (Hlt : timestamp a < timestamp b).
    { rewrite (generated_timestamp _ _ _ _ _ _ Hgen Ha).
      rewrite (generated_timestamp _ _ _ _ _ _ Hgen Hb).
      apply timeOf_increasing; [exact Hz | lia]. }
    unfold Date.Day, Date.msPerDay.
    Z.to_euclidean_division_equations. lia. }
  split; [exact Hsorted|].
  unfold averageLine. rewrite Hsorted. unfold macData.
  rewrite head_map, last_map.
  destruct (head (filteredData recs f)), (last (filteredData recs f));
    reflexivity.
Qed.

Lemma macSortedData_generated_witness :
  exists recs,
    generateSampleDataOf utcZone midDraws 103 = Ok recs
    /\ macSortedData parseISODate (macData (filteredData recs "Dry Season"))
       = macData (filteredData recs "Dry Season")
    /\ averageLine parseISODate (macData (filteredData recs "Dry Season"))
         (Fin 5)
       = [(date <$> head (filteredData recs "Dry Season"), Fin 5);
          (date <$> last (filteredData recs "Dry Season"), Fin 5)].
Proof.
  destruct (generateSampleDataOf utcZone midDraws 103) as [recs|] eqn:Hgen;
    [|vm_compute in Hgen; discriminate].
  assert (Hsize : 103 <= 100000) by lia.
  exists recs. split; [reflexivity|].
  exact (macSortedData_generated parseISODate utcZone midDraws 103 recs
           "Dry Season" (Fin 5) parseISODate_parsesISODates utcZone_bounded
           Hsize Hgen).
Defined.

(** ** Local months, UTC dates *)

Lemma MonthFromTime_last_day_2021 (t : Z) :
  Date.Day t = 18992 -> Date.MonthFromTime t = 11.
Proof.
  intros Hd.
  assert (Hy : Date.YearFromTime t = 2021).
  { unfold Date.YearFromTime. rewrite Hd.
    change (1970 + 18992 * 400 / 146097) with 2021.
    change (Date.TimeFromYear (2021 + 1)) with 1640995200000.
    change (Date.TimeFromYear 2021) with 1609459200000.
    assert (Ht : 18992 * 86400000 <= t < 18993 * 86400000).
    { unfold Date.Day, Date.msPerDay in Hd.
      Z.to_euclidean_division_equations. lia. }
    destruct (Z.leb_spec0 1640995200000 t); [lia|].
    destruct (Z.leb_spec0 1609459200000 t); [reflexivity | lia]. }
  unfold Date.MonthFromTime, Date.DayWithinYear, Date.InLeapYear.
  rewrite Hy, Hd. reflexivity.
Qed.

(** X14: the month and the season of a record follow the host's local
    calendar while its date text is the UTC date.  On a host at a fixed
    offset west of UTC (less than a day) the first record is dated
    2022-01-01 and stamped with the start date, yet carries month 12, in
    the dry season; at offset zero it carries month 1. *)
Theorem first_record_local_month
  (LocalTZA : Z -> bool -> Z) (random : nat -> Q) (size : Z)
  (recs : list DataPoint) (c : Z) :
  (forall t isUTC, LocalTZA t isUTC = c) ->
  - Date.msPerDay < c <= 0 ->
  1 <= size ->
  generateSampleDataOf LocalTZA random size = Ok recs ->
  exists r,
    recs !! 0%nat = Some r
    /\ timestamp r = startDate
    /\ date r = "2022-01-01"%string
    /\ season r = "Dry Season"%string
    /\ month r = (if c =? 0 then 1 else 12).
Proof.
  intros Hc Hrange Hsize Hgen.
  destruct (generateSampleDataOf_lookup _ _ _ _ Hgen) as [Hlen Hrecs].
  destruct (lookup_lt_is_Some_2 recs 0) as [r Hr]; [lia|].
  exists r. split; [exact Hr|].
  destruct (Hrecs 0%nat r Hr) as [pos' Hit].
  pose proof (iteration_date _ _ _ _ _ _ Hit) as Hdate.
  destruct (iteration_Ok _ _ _ _ _ _ Hit) as (_ & _ & Hmonth & Hseason & _).
  pose proof (generated_timestamp _ _ _ _ _ _ Hgen Hr) as Hts.
  rewrite (timeOf_fixed_offset LocalTZA c) in Hts by exact Hc.
  change (startDate + 3 * Z.of_nat 0 * Date.msPerDay) with startDate in Hts.
  split; [exact Hts|].
  rewrite Hts in Hdate, Hmonth.
  split; [rewrite Hdate; vm_compute; reflexivity|].
  unfold Date.LocalTime in Hmonth. rewrite Hc in Hmonth.
  destruct (Z.eqb_spec c 0) as [->|Hne].
  - assert (Hm : month r = 1) by (rewrite Hmonth; vm_compute; reflexivity).
    rewrite Hseason, Hm. split; reflexivity.
  - assert (Hm : month r = 12).
    { rewrite Hmonth, MonthFromTime_last_day_2021; [reflexivity|].
      unfold startDate, Date.Day, Date.msPerDay in *.
      Z.to_euclidean_division_equations. lia. }
    rewrite Hseason, Hm. split; reflexivity.
Qed.

Lemma first_record_local_month_witness :
  exists recs r,
    generateSampleDataOf westZone midDraws 103 = Ok recs
    /\ recs !! 0%nat = Some r
    /\ timestamp r = startDate
    /\ date r = "2022-01-01"%string
    /\ season r = "Dry Season"%string
    /\ month r = 12.
Proof.
  destruct (generateSampleDataOf westZone midDraws 103) as [recs|] eqn:Hgen;
    [|vm_compute in Hgen; discriminate].
  assert (Hc : forall t isUTC, westZone t isUTC = -18000000)
    by reflexivity.
  assert (Hrange : - Date.msPerDay < -18000000 <= 0)
    by (unfold Date.msPerDay; lia).
  assert (Hsize : 1 <= 103) by lia.
  destruct (first_record_local_month westZone midDraws 103 recs (-18000000)
              Hc Hrange Hsize Hgen) as (r & Hr & H).
  exists recs, r. split; [reflexivity|]. split; [exact Hr|]. exact H.
Defined.

(** * Properties in double precision *)

(** ** Texts, means and percentages of doubles *)

Example toFixed_doubles :
  F64.toFixed (0.375 / 5) 2 = "0.07"%string
  /\ F64.toFixed 1.005 2 = "1.00"%string
  /\ F64.toFixed (-2.5) 0 = "-3"%string
  /\ F64.toFixed (1e308 + 1e308) 2 = "Infinity"%string
  /\ F64.toFixed (0 / 0) 2 = "NaN"%string
  /\ F64.toFixed 1e21 2 = "1e+21"%string
  /\ F64.toFixed 1.2345678901234569e23 2 = "1.2345678901234569e+23"%string.
Proof. vm_compute. repeat split. Qed.

Example meanD_doubles :
  F64.toFixed (meanD [0.375; 0; 0; 0; 0]%float) 2 = "0.07"%string
  /\ F64.toFixed (meanD [1e308; 1e308]%float) 2 = "Infinity"%string
  /\ F64.toFixed (Double.percentage 23 80) 1 = "28.7"%string.
Proof. vm_compute. repeat split. Qed.

(** Percentages of counts that add up to the total need not add up to 100
    as doubles: 20, 1 and 0 of 21 give a sum below 100. *)
Example percentages_of_21 :
  PrimFloat.ltb
    (Double.percentage 20 21 + Double.percentage 1 21
     + Double.percentage 0 21)%float 100%float = true.
Proof. vm_compute. reflexivity. Qed.

(** At the ends of the range of the draws the doubles of a record lie in
    the ranges of exact arithmetic widened by a hundredth. *)
Example end_draws_doubles :
  forallb
    (fun u0 =>
       forallb
         (fun u2 =>
            forallb
              (fun u3 =>
                 withinD 1.43 10.81 (ecFTIRD u0 u2)
                 && withinD 7.49 62.51 (fabsD u0 u3)
                 && withinD 3.47 8.69 (fabsD u0 u3 / ecFTIRD u0 u2))
              endDraws)
         endDraws)
    endDraws = true.
Proof. vm_compute. reflexivity. Qed.

(** The overall mean has no guard of its own: over no record it is 0/0.
    The component does not get there: the selection it hands to the
    analysis is never empty. *)
Example renderMACAnalysis_of_no_record :
  Double.overallText (Double.renderMACAnalysis []) = "NaN"%string
  /\ Double.overallCount (Double.renderMACAnalysis []) = 0%nat.
Proof. vm_compute. split; reflexivity. Qed.

(** ** The generator: dates and seasons do not depend on the draws *)





(** ** The states of the component *)






(** ** Seasonal statistics in double precision *)

Lemma macData_season_valuesD (records : list Double.DataPoint) (s : string) :
  map Double.itemMac
    (List.filter (fun item => String.eqb (Double.itemSeason item) s)
       (Double.macData records))
  = map Double.mac
      (List.filter (fun r => String.eqb (Double.season r) s) records).
Proof.
  unfold Double.macData.
  induction records as [|r rest IH]; cbn; [reflexivity|].
  destruct (String.eqb (Double.season r) s); cbn; rewrite IH; reflexivity.
Qed.

Lemma filter_season_recordsOfSeasonD (records : list Double.DataPoint)
  (s : string) :
  List.filter (fun r => String.eqb (Double.season r) s) records
  = recordsOfSeasonD s records.
Proof.
  induction records as [|r rest IH]; cbn; [reflexivity|].
  destruct (decide (Double.season r = s)) as [E|E].
  - apply String.eqb_eq in E. rewrite E, IH. reflexivity.
  - apply String.eqb_neq in E. rewrite E, IH. reflexivity.
Qed.

Lemma reduceSum_sumFrom (values : list float) :
  Double.reduceSum values = sumFrom 0 values.
Proof.
  unfold Double.reduceSum. generalize 0%float.
  induction values as [|v rest IH]; intros acc; cbn [fold_left sumFrom];
    [reflexivity | apply IH].
Qed.

Lemma average_meanD (values : list float) :
  Double.average values = meanD values.
Proof. unfold Double.average, meanD. rewrite reduceSum_sumFrom. reflexivity. Qed.

Lemma seasonalStep_lookupD (records : list Double.DataPoint)
  (acc : gmap string SeasonStats) (x s : string) :
  Double.seasonalStep (Double.macData records) acc x !! s
  = if decide (x = s /\ (0 < Double.seasonCount records x)%nat)
    then Some (seasonEntryD records x) else acc !! s.
Proof.
  unfold Double.seasonalStep, seasonEntryD, Double.seasonCount.
  rewrite macData_season_valuesD, length_map, average_meanD.
  rewrite <- filter_season_recordsOfSeasonD.
  destruct (Nat.ltb_spec0 0
              (length (List.filter
                         (fun r => String.eqb (Double.season r) x) records)))
    as [Hpos|Hzero].
  - rewrite lookup_insert.
    destruct (decide (x = s)) as [->|Hne].
    + rewrite decide_True by tauto. reflexivity.
    + rewrite decide_False by tauto. reflexivity.
  - rewrite decide_False by tauto. reflexivity.
Qed.

Lemma seasonalFold_lookupD (records : list Double.DataPoint)
  (l : list string) :
  forall (acc : gmap string SeasonStats) (s : string),
    fold_left (Double.seasonalStep (Double.macData records)) l acc !! s
    = if decide (s ∈ l /\ (0 < Double.seasonCount records s)%nat)
      then Some (seasonEntryD records s) else acc !! s.
Proof.
  induction l as [|x l IH]; intros acc s; cbn [fold_left].
  - rewrite decide_False; [reflexivity|].
    rewrite elem_of_nil. tauto.
  - rewrite IH, seasonalStep_lookupD.
    destruct (decide (s ∈ l /\ (0 < Double.seasonCount records s)%nat))
      as [H|H].
    + rewrite decide_True; [reflexivity|].
      rewrite elem_of_cons. tauto.
    + destruct (decide (x = s /\ (0 < Double.seasonCount records x)%nat))
        as [[-> Hx]|Hx].
      * rewrite decide_True; [reflexivity|].
        rewrite elem_of_cons. tauto.
      * rewrite decide_False; [reflexivity|].
        rewrite elem_of_cons. intros [[->|Hin] Hpos]; tauto.
Qed.

Lemma seasonalFold_countSumD (records : list Double.DataPoint)
  (l : list string) :
  NoDup l ->
  forall acc : gmap string SeasonStats,
    (forall s, In s l -> acc !! s = None) ->
    countSum (fold_left (Double.seasonalStep (Double.macData records)) l acc)
    = (countSum acc + sum_list (map (Double.seasonCount records) l))%nat.
Proof.
  induction 1 as [|x l Hx Hl IH]; intros acc Hfresh; cbn [fold_left map].
  - cbn. lia.
  - rewrite IH.
    + unfold Double.seasonalStep.
      rewrite macData_season_valuesD, length_map.
      fold (Double.seasonCount records x).
      destruct (Nat.ltb_spec0 0 (Double.seasonCount records x))
        as [Hpos|Hzero].
      * rewrite countSum_insert by (apply Hfresh; cbn; tauto).
        cbn [count sum_list_with id]. lia.
      * cbn [sum_list_with id]. lia.
    + intros s Hs. rewrite seasonalStep_lookupD.
      rewrite decide_False.
      * apply Hfresh. cbn. tauto.
      * intros [-> _]. apply Hx. apply list_elem_of_In. exact Hs.
Qed.

Lemma seasonCount_sumD (records : list Double.DataPoint) :
  sum_list (map (Double.seasonCount records) seasons)
  = length (List.filter inTableD records).
Proof.
  unfold inTableD, seasons, Double.seasonCount.
  cbn [map sum_list_with id existsb].
  induction records as [|r rest IH]; [reflexivity|].
  cbn [List.filter].
  destruct (String.eqb_spec (Double.season r) "Dry Season") as [E1|E1];
    destruct (String.eqb_spec (Double.season r) "Belg Rainy Season")
      as [E2|E2];
    destruct (String.eqb_spec (Double.season r) "Kiremt Rainy Season")
      as [E3|E3];
    try congruence; cbn [orb length] in *; lia.
Qed.

(** C5 (as the code has it): for every sequence of records the map holds,
    for each season of the table with at least one record, the text with
    two decimals of the mean of [mac] over that season's records, the
    double [sum / count] with the sum taken from left to right, and the
    number of those records; a season without records has no entry, nor has
    any other key; the counts held add up to the number of records whose
    season is in the table. *)
Theorem seasonalMACs_entries (records : list Double.DataPoint) :
  let stats := Double.seasonalMACs (Double.renderMACAnalysis records) in
  (forall s, In s seasons -> (0 < Double.seasonCount records s)%nat ->
             stats !! s
             = Some {| avg := F64.toFixed
                                (meanD (map Double.mac
                                          (recordsOfSeasonD s records))) 2;
                       count := length (recordsOfSeasonD s records) |})
  /\ (forall s, Double.seasonCount records s = 0%nat -> stats !! s = None)
  /\ (forall s, ~ In s seasons -> stats !! s = None)
  /\ countSum stats = length (List.filter inTableD records).
Proof.
  cbn [Double.seasonalMACs Double.renderMACAnalysis].
  repeat split.
  - intros s Hs Hpos. rewrite seasonalFold_lookupD.
    rewrite decide_True by (rewrite list_elem_of_In; tauto).
    reflexivity.
  - intros s Hzero. rewrite seasonalFold_lookupD.
    rewrite decide_False by lia. apply lookup_empty.
  - intros s Hs. rewrite seasonalFold_lookupD.
    rewrite decide_False by (rewrite list_elem_of_In; tauto).
    apply lookup_empty.
  - rewrite seasonalFold_countSumD.
    + unfold countSum. rewrite map_fold_empty. apply seasonCount_sumD.
    + apply seasons_NoDup.
    + intros s _. apply lookup_empty.
Qed.

Lemma seasonalMACs_entries_witness :
  exists recs,
    Double.generateSampleData utcZone halfDraws = Ok recs
    /\ let stats := Double.seasonalMACs (Double.renderMACAnalysis recs) in
       stats !! "Dry Season"%string = Some {| avg := "5.56"; count := 32 |}
       /\ stats !! "all"%string = None
       /\ countSum stats = 103%nat.
Proof.
  destruct (Double.generateSampleData utcZone halfDraws) as [recs|] eqn:Hgen;
    [|vm_compute in Hgen; discriminate].
  exists recs. split; [reflexivity|].
  destruct (seasonalMACs_entries recs) as (Hsome & _ & Hout & Hsum).
  vm_compute in Hgen. injection Hgen as <-.
  split; [|split].
  - rewrite Hsome; [vm_compute; reflexivity | cbn; tauto | vm_compute; lia].
  - apply Hout. cbn. intros [H|[H|[H|[]]]]; discriminate H.
  - rewrite Hsum. vm_compute. reflexivity.
Defined.

(** The entry is not the mean but a text of two decimals.  On the run of
    the component on a UTC host with every draw 0.5 the dry season's entry
    reads "5.56" over 32 records, while the mean computed for them is a
    double between 5.555 and 5.556; with every draw 0.50001 the mean is
    another double and the entry the same. *)
Lemma seasonalMACs_holds_text :
  exists recs recs',
    Double.generateSampleData utcZone halfDraws = Ok recs
    /\ Double.generateSampleData utcZone nearHalfDraws = Ok recs'
    /\ Double.seasonalMACs (Double.renderMACAnalysis recs)
         !! "Dry Season"%string
       = Some {| avg := "5.56"; count := 32 |}
    /\ Double.seasonalMACs (Double.renderMACAnalysis recs')
         !! "Dry Season"%string
       = Some {| avg := "5.56"; count := 32 |}
    /\ exists m m',
        F64.valueOf
          (meanD (map Double.mac (recordsOfSeasonD "Dry Season" recs)))
        = Some m
        /\ F64.valueOf
             (meanD (map Double.mac (recordsOfSeasonD "Dry Season" recs')))
           = Some m'
        /\ (5.555 < m < 5.556)%Q /\ (5.555 < m' < 5.556)%Q
        /\ ~ (m == m')%Q.
Proof.
  destruct (Double.generateSampleData utcZone halfDraws) as [recs|] eqn:Hgen;
    [|vm_compute in Hgen; discriminate].
  destruct (Double.generateSampleData utcZone nearHalfDraws)
    as [recs'|] eqn:Hgen'; [|vm_compute in Hgen'; discriminate].
  exists recs, recs'. split; [reflexivity|]. split; [reflexivity|].
  vm_compute in Hgen. injection Hgen as <-.
  vm_compute in Hgen'. injection Hgen' as <-.
  split; [vm_compute; reflexivity|]. split; [vm_compute; reflexivity|].
  eexists _, _. split; [vm_compute; reflexivity|].
  split; [vm_compute; reflexivity|].
  split; [split; vm_compute; reflexivity|].
  split; [split; vm_compute; reflexivity|].
  intros H. vm_compute in H. discriminate H.
Qed.

(** ** The seasonal distribution in double precision *)







(** ** [mac] in double precision *)







